(** * MoviePilot: the Douban endpoints (app/api/endpoints/douban.py)

    A shallow embedding of the request handlers of the Douban router and of
    the fragment of Python they run on: dynamically typed payload values,
    exceptions as an error monad, [str] methods ([in], [split], [join]) and
    [dict] access.  Python [str] values are held as Rocq strings carrying
    their UTF-8 encoding; substring search, splitting on a separator and
    joining commute with that encoding. *)

From Stdlib Require Import String Ascii List ZArith Bool Arith Lia.
Import ListNotations.

Set Warnings "-register-all".

Local Open Scope string_scope.
Local Open Scope list_scope.

(** ** Exceptions and results *)

Inductive exn : Set :=
| AttributeError
| TypeError
| ValueError
| IndexError.

Inductive result (A : Type) : Type :=
| Ok (a : A)
| Raise (e : exn).

Arguments Ok {A} a.
Arguments Raise {A} e.

Definition bind {A B : Type} (r : result A) (k : A -> result B) : result B :=
  match r with
  | Ok a => k a
  | Raise e => Raise e
  end.

Notation "x <- r ;; k" := (bind r (fun x => k))
  (at level 61, r at next level, right associativity).

(** Left-to-right traversal: the first element that raises decides. *)
Fixpoint mapM {A B : Type} (f : A -> result B) (l : list A) : result (list B) :=
  match l with
  | [] => Ok []
  | x :: xs => y <- f x ;; ys <- mapM f xs ;; Ok (y :: ys)
  end.

(** ** Payload values *)

Inductive pyval : Type :=
| PNone
| PBool (b : bool)
| PInt (z : Z)
| PStr (s : string)
| PList (l : list pyval)
| PDict (d : list (string * pyval)).

Definition dict := list (string * pyval).

(** Python truth value: [None], [False], [0], [''], [[]] and [{}] are falsy. *)
Definition truthy (v : pyval) : bool :=
  match v with
  | PNone => false
  | PBool b => b
  | PInt z => negb (z =? 0)%Z
  | PStr s => negb (s =? "")
  | PList l => match l with [] => false | _ :: _ => true end
  | PDict d => match d with [] => false | _ :: _ => true end
  end.

Definition of_option (o : option string) : pyval :=
  match o with
  | Some s => PStr s
  | None => PNone
  end.

(** ** Dictionaries

    A [dict] is kept as the list of its items in insertion order; a lookup
    takes the first item with the key, and payloads have each key once. *)

Fixpoint dict_get (d : dict) (k : string) : option pyval :=
  match d with
  | [] => None
  | (k', v) :: d' => if k' =? k then Some v else dict_get d' k
  end.

Definition dict_has (d : dict) (k : string) : bool :=
  match dict_get d k with
  | Some _ => true
  | None => false
  end.

(** [d[k] = v]: an existing key keeps its place, a new key goes last. *)
Fixpoint dict_set (d : dict) (k : string) (v : pyval) : dict :=
  match d with
  | [] => [(k, v)]
  | (k', v') :: d' =>
      if k' =? k then (k, v) :: d' else (k', v') :: dict_set d' k v
  end.

(** [x.get(k, default)]; only a [dict] has the method. *)
Definition py_get (x : pyval) (k : string) (default : pyval) : result pyval :=
  match x with
  | PDict d =>
      match dict_get d k with
      | Some v => Ok v
      | None => Ok default
      end
  | _ => Raise AttributeError
  end.

(** ** Strings *)

(** Bytes [10xxxxxx] continue the code point opened by the byte before. *)
Definition is_continuation (c : ascii) : bool :=
  let n := nat_of_ascii c in ((128 <=? n) && (n <? 192))%nat.

(** The characters of a [str], each as a one-character string. *)
Fixpoint chars (s : string) : list string :=
  match s with
  | "" => []
  | String c s' =>
      match s' with
      | "" => [String c ""]
      | String c' _ =>
          if is_continuation c'
          then match chars s' with
               | x :: xs => String c x :: xs
               | [] => [String c ""]
               end
          else String c "" :: chars s'
      end
  end.

(** [strip_prefix p s] is the rest of [s] after a leading [p]. *)
Fixpoint strip_prefix (p s : string) : option string :=
  match p with
  | "" => Some s
  | String a p' =>
      match s with
      | "" => None
      | String b s' => if Ascii.eqb a b then strip_prefix p' s' else None
      end
  end.

(** [s.partition(sep)] at the first occurrence of [sep], when there is one. *)
Fixpoint partition (sep s : string) : option (string * string) :=
  match strip_prefix sep s with
  | Some rest => Some ("", rest)
  | None =>
      match s with
      | "" => None
      | String c s' =>
          match partition sep s' with
          | Some (a, b) => Some (String c a, b)
          | None => None
          end
      end
  end.

(** [sub in s] *)
Definition contains (sub s : string) : bool :=
  match partition sub s with
  | Some _ => true
  | None => false
  end.

(** Cutting at successive first occurrences, left to right. *)
Fixpoint split_fuel (n : nat) (sep s : string) : list string :=
  match n with
  | O => [s]
  | S n' =>
      match partition sep s with
      | Some (a, b) => a :: split_fuel n' sep b
      | None => [s]
      end
  end.

(** [s.split(sep)]; an empty separator is refused. *)
Definition split (sep s : string) : result (list string) :=
  match sep with
  | "" => Raise ValueError
  | _ => Ok (split_fuel (String.length s) sep s)
  end.

(** [l[-1]] *)
Fixpoint index_last {A : Type} (l : list A) : result A :=
  match l with
  | [] => Raise IndexError
  | [x] => Ok x
  | _ :: l' => index_last l'
  end.

(** [for x in v]: lists give their items, dicts their keys, strings their
    characters; nothing else here is iterable. *)
Definition py_iter (v : pyval) : result (list pyval) :=
  match v with
  | PList l => Ok l
  | PDict d => Ok (map (fun kv => PStr (fst kv)) d)
  | PStr s => Ok (map PStr (chars s))
  | _ => Raise TypeError
  end.

Definition as_str (v : pyval) : result string :=
  match v with
  | PStr s => Ok s
  | _ => Raise TypeError
  end.

(** [sep.join(v)]: [v] must be an iterable of [str]. *)
Definition py_join (sep : string) (v : pyval) : result string :=
  items <- py_iter v ;;
  strs <- mapM as_str items ;;
  Ok (String.concat sep strs).

(** [v.split(sep)]; only a [str] has the method. *)
Definition py_split (v : pyval) (sep : string) : result (list string) :=
  match v with
  | PStr s => split sep s
  | _ => Raise AttributeError
  end.

(** [x[k] = v]; the handlers only assign into dictionaries. *)
Definition py_setitem (x : pyval) (k : string) (v : pyval) : result pyval :=
  match x with
  | PDict d => Ok (PDict (dict_set d k v))
  | _ => Raise TypeError
  end.

(** [f(source='douban', **kwargs)]: the unpacked value must be a mapping and
    a keyword given twice is refused at the call. *)
Definition call_with_source (source : string) (kwargs : pyval) : result dict :=
  match kwargs with
  | PDict d =>
      if dict_has d "source" then Raise TypeError
      else Ok (("source", PStr source) :: d)
  | _ => Raise TypeError
  end.

(** ** Collaborators of the router *)

(** Modelled from the spec: [app.schemas.MediaType] is not under src/.  The
    data model gives the closed enumeration MOVIE | TV, and the docstrings of
    [douban_credits] and [douban_recommend] give the two values. *)
Inductive MediaType : Set :=
| MOVIE
| TV.

Definition MediaType_value (m : MediaType) : string :=
  match m with
  | MOVIE => "电影"
  | TV => "电视剧"
  end.

Definition MediaType_eqb (a b : MediaType) : bool :=
  match a, b with
  | MOVIE, MOVIE | TV, TV => true
  | _, _ => false
  end.

(** [MediaType(value)]: the member that has the value, [ValueError] when no
    member has it. *)
Definition MediaType_of (value : string) : result MediaType :=
  if value =? MediaType_value MOVIE then Ok MOVIE
  else if value =? MediaType_value TV then Ok TV
  else Raise ValueError.

Module schemas.

Definition field (kwargs : dict) (k : string) (default : pyval) : pyval :=
  match dict_get kwargs k with
  | Some v => v
  | None => default
  end.

(** Modelled from the spec: [app.schemas.MediaPerson] is not under src/.
    The attributes are those of the data model; every one is null by
    default, [also_known_as] is an empty sequence by default, and the
    constructor stores the keywords it knows and drops the others. *)
Record MediaPerson : Type := {
  source : pyval;
  id : pyval;
  name : pyval;
  avatar : pyval;
  biography : pyval;
  also_known_as : pyval
}.

Definition MediaPerson_init (kwargs : dict) : MediaPerson :=
  {| source := field kwargs "source" PNone;
     id := field kwargs "id" PNone;
     name := field kwargs "name" PNone;
     avatar := field kwargs "avatar" PNone;
     biography := field kwargs "biography" PNone;
     also_known_as := field kwargs "also_known_as" (PList []) |}.

(** Modelled from the spec: [app.schemas.MediaInfo] is not under src/.
    The attributes are those of the data model, null by default. *)
Record MediaInfo : Type := {
  info_id : pyval;
  info_type : pyval;
  info_title : pyval;
  info_poster_path : pyval
}.

Definition MediaInfo_init (kwargs : dict) : MediaInfo :=
  {| info_id := field kwargs "id" PNone;
     info_type := field kwargs "type" PNone;
     info_title := field kwargs "title" PNone;
     info_poster_path := field kwargs "poster_path" PNone |}.

End schemas.

(** [app.chain.douban.DoubanChain]: the calls into the aggregation layer.
    Each one hands back a payload or raises. *)
Module DoubanChain.

Record t : Type := {
  person_detail : Z -> result pyval;
  movie_showing : Z -> Z -> result pyval;
  douban_discover : MediaType -> string -> string -> Z -> Z -> result pyval;
  movie_credits : string -> Z -> result pyval;
  tv_credits : string -> Z -> result pyval;
  movie_recommend : string -> result pyval;
  tv_recommend : string -> result pyval;
  douban_info : string -> result pyval
}.

End DoubanChain.

(** [app.core.context.MediaInfo]: the normalised media entry.  The class is
    not under src/; the handlers use its constructor from a raw payload, its
    [poster_path] attribute and [to_dict()], which carries the attribute
    under its own name. *)
Class MediaInfoClass : Type := {
  MediaInfo : Type;
  from_douban : pyval -> MediaInfo;
  poster_path : MediaInfo -> option string;
  to_dict : MediaInfo -> dict;
  to_dict_poster_path :
    forall m, dict_get (to_dict m) "poster_path" = Some (of_option (poster_path m))
}.

(** ** The handlers *)

Section Endpoints.

Context {MI : MediaInfoClass}.
Variable chain : DoubanChain.t.

(** GET /person/{person_id} *)
Definition douban_person (person_id : Z) : result schemas.MediaPerson :=
  personinfo <- DoubanChain.person_detail chain person_id ;;
  if negb (truthy personinfo) then
    Ok (schemas.MediaPerson_init [("source", PStr "douban")])
  else
    extra <- py_get personinfo "extra" (PDict []) ;;
    infos <- py_get extra "info" PNone ;;
    also_known_as <-
      (if truthy infos then
         items <- py_iter infos ;;
         joined <- mapM (py_join "：") items ;;
         Ok (map PStr joined)
       else Ok []) ;;
    person_id' <- py_get personinfo "id" PNone ;;
    title <- py_get personinfo "title" PNone ;;
    cover_img <- py_get personinfo "cover_img" (PDict []) ;;
    url <- py_get cover_img "url" PNone ;;
    extra' <- py_get personinfo "extra" (PDict []) ;;
    short_info <- py_get extra' "short_info" PNone ;;
    kwargs <- call_with_source "douban"
                (PDict [("id", person_id');
                        ("name", title);
                        ("avatar", url);
                        ("biography", short_info);
                        ("also_known_as", PList also_known_as)]) ;;
    Ok (schemas.MediaPerson_init kwargs).

(** GET /showing *)
Definition movie_showing (page count : Z) : result (list dict) :=
  movies <- DoubanChain.movie_showing chain page count ;;
  if negb (truthy movies) then Ok []
  else
    items <- py_iter movies ;;
    let medias := map from_douban items in
    Ok (map to_dict medias).

(** The condition of the comprehension in [douban_movies]. *)
Definition movie_poster_ok (media : MediaInfo) : bool :=
  match poster_path media with
  | None => false
  | Some p =>
      truthy (PStr p)
      && negb (contains "movie_large.jpg" p)
      && negb (contains "tv_normal.png" p)
  end.

(** GET /movies *)
Definition douban_movies (sort tags : string) (page count : Z)
  : result (list dict) :=
  movies <- DoubanChain.douban_discover chain MOVIE sort tags page count ;;
  if negb (truthy movies) then Ok []
  else
    items <- py_iter movies ;;
    let medias := map from_douban items in
    Ok (map to_dict (filter movie_poster_ok medias)).

(** The condition of the comprehension in [douban_tvs]. *)
Definition tv_poster_ok (media : MediaInfo) : bool :=
  match poster_path media with
  | None => false
  | Some p =>
      truthy (PStr p)
      && negb (contains "movie_large.jpg" p)
      && negb (contains "tv_normal.jpg" p)
      && negb (contains "tv_large.jpg" p)
  end.

(** GET /tvs *)
Definition douban_tvs (sort tags : string) (page count : Z)
  : result (list dict) :=
  tvs <- DoubanChain.douban_discover chain TV sort tags page count ;;
  if negb (truthy tvs) then Ok []
  else
    items <- py_iter tvs ;;
    let medias := map from_douban items in
    Ok (map to_dict (filter tv_poster_ok medias)).

(** The body of the loop in [douban_credits]:
    [doubaninfo['id'] = doubaninfo.get('uri', '').split('?subject_id=')[-1]] *)
Definition update_id (doubaninfo : pyval) : result pyval :=
  uri <- py_get doubaninfo "uri" (PStr "") ;;
  parts <- py_split uri "?subject_id=" ;;
  last_part <- index_last parts ;;
  py_setitem doubaninfo "id" (PStr last_part).

Definition person_of (doubaninfo : pyval) : result schemas.MediaPerson :=
  kwargs <- call_with_source "douban" doubaninfo ;;
  Ok (schemas.MediaPerson_init kwargs).

(** GET /credits/{doubanid}/{type_name}.  The loop rewrites each entry in
    place before any person is built; the rewrite reads [uri] and writes
    [id], so running it again on an entry changes nothing. *)
Definition douban_credits (doubanid type_name : string) (page : Z)
  : result (list schemas.MediaPerson) :=
  mediatype <- MediaType_of type_name ;;
  let after (doubaninfos : pyval) :=
    if negb (truthy doubaninfos) then Ok []
    else
      items <- py_iter doubaninfos ;;
      updated <- mapM update_id items ;;
      mapM person_of updated in
  if MediaType_eqb mediatype MOVIE then
    doubaninfos <- DoubanChain.movie_credits chain doubanid page ;;
    after doubaninfos
  else if MediaType_eqb mediatype TV then
    doubaninfos <- DoubanChain.tv_credits chain doubanid page ;;
    after doubaninfos
  else Ok [].

(** GET /recommend/{doubanid}/{type_name} *)
Definition douban_recommend (doubanid type_name : string)
  : result (list dict) :=
  mediatype <- MediaType_of type_name ;;
  let after (doubaninfos : pyval) :=
    if negb (truthy doubaninfos) then Ok []
    else
      items <- py_iter doubaninfos ;;
      Ok (map (fun doubaninfo => to_dict (from_douban doubaninfo)) items) in
  if MediaType_eqb mediatype MOVIE then
    doubaninfos <- DoubanChain.movie_recommend chain doubanid ;;
    after doubaninfos
  else if MediaType_eqb mediatype TV then
    doubaninfos <- DoubanChain.tv_recommend chain doubanid ;;
    after doubaninfos
  else Ok [].

(** GET /{doubanid}: a dictionary when the entry is found, an empty
    [schemas.MediaInfo] otherwise. *)
Definition douban_info (doubanid : string)
  : result (dict + schemas.MediaInfo) :=
  doubaninfo <- DoubanChain.douban_info chain doubanid ;;
  if truthy doubaninfo then Ok (inl (to_dict (from_douban doubaninfo)))
  else Ok (inr (schemas.MediaInfo_init [])).

End Endpoints.

(** ** A reference normaliser and sample chains *)

(** Modelled from the spec: the normaliser behind
    [app.core.context.MediaInfo] is not under src/.  A media entry has an id,
    a type, a title and a nullable poster path; the raw poster field maps to
    [poster_path], and a payload without a poster field gives null. *)
Module context.

Record MediaInfo : Type := {
  id : pyval;
  type : pyval;
  title : pyval;
  poster_path : option string
}.

Definition raw_field (douban_info : pyval) (k : string) : pyval :=
  match douban_info with
  | PDict d => schemas.field d k PNone
  | _ => PNone
  end.

Definition from_douban (douban_info : pyval) : MediaInfo :=
  {| id := raw_field douban_info "id";
     type := raw_field douban_info "type";
     title := raw_field douban_info "title";
     poster_path :=
       match raw_field douban_info "poster" with
       | PStr s => Some s
       | _ => None
       end |}.

Definition to_dict (m : MediaInfo) : dict :=
  [("id", id m);
   ("type", type m);
   ("title", title m);
   ("poster_path", of_option (poster_path m))].

End context.

#[local] Instance reference_MediaInfo : MediaInfoClass := {|
  MediaInfo := context.MediaInfo;
  from_douban := context.from_douban;
  poster_path := context.poster_path;
  to_dict := context.to_dict;
  to_dict_poster_path := fun _ => eq_refl
|}.

(** A chain whose every call hands back the same payload. *)
Definition const_chain (v : pyval) : DoubanChain.t :=
  {| DoubanChain.person_detail := fun _ => Ok v;
     DoubanChain.movie_showing := fun _ _ => Ok v;
     DoubanChain.douban_discover := fun _ _ _ _ _ => Ok v;
     DoubanChain.movie_credits := fun _ _ => Ok v;
     DoubanChain.tv_credits := fun _ _ => Ok v;
     DoubanChain.movie_recommend := fun _ => Ok v;
     DoubanChain.tv_recommend := fun _ => Ok v;
     DoubanChain.douban_info := fun _ => Ok v |}.

(** A raw media entry with a title and a poster. *)
Definition raw_media (title poster : string) : pyval :=
  PDict [("id", PStr "1292052"); ("title", PStr title); ("poster", PStr poster)].

(** Two raw entries that differ only in their poster: a stock image and a
    real one. *)
Definition placeholder_poster : string :=
  "https://img1.doubanio.com/f/movie/30c6263b6db26d055cbbe73fe653e29014142ea3/pics/movie/movie_large.jpg".

Definition real_poster : string :=
  "https://img1.doubanio.com/view/photo/m_ratio_poster/public/p480747492.jpg".

Definition placeholder_entry : pyval := raw_media "肖申克的救赎" placeholder_poster.

Definition real_entry : pyval := raw_media "肖申克的救赎" real_poster.

(** A raw entry without a poster field. *)
Definition no_poster_entry : pyval :=
  PDict [("id", PStr "1292052"); ("title", PStr "肖申克的救赎")].

(** ** The specification's vocabulary *)

Definition subject_marker : string := "?subject_id=".

(** [sep] occurs in [s]. *)
Definition occurs (sep s : string) : Prop :=
  exists a b, s = (a ++ sep ++ b)%string.

(** [r] is what follows the last occurrence of [sep] in [s]. *)
Definition after_last_occurrence (sep s r : string) : Prop :=
  exists pre,
    s = (pre ++ sep ++ r)%string
    /\ forall pre' r', s = (pre' ++ sep ++ r')%string ->
                       String.length pre' <= String.length pre.

(** The identifier embedded in a composite URI, in the words of the ID
    extractor: the last segment after the marker, the input itself when the
    marker is absent. *)
Definition extracted_id (uri r : string) : Prop :=
  (occurs subject_marker uri /\ after_last_occurrence subject_marker uri r)
  \/ (~ occurs subject_marker uri /\ r = uri).

(** A (label, value) pair of the raw extra info, and its joined form. *)
Definition raw_pair (lv : string * string) : pyval :=
  PList [PStr (fst lv); PStr (snd lv)].

Definition join_pair (lv : string * string) : string :=
  (fst lv ++ "：" ++ snd lv)%string.

(** The sentinel file names of the two discover listings. *)
Definition movie_sentinels : list string :=
  ["movie_large.jpg"; "tv_normal.png"].

Definition tv_sentinels : list string :=
  ["movie_large.jpg"; "tv_normal.jpg"; "tv_large.jpg"].

Definition is_placeholder (sentinels : list string) (p : string) : bool :=
  existsb (fun sentinel => contains sentinel p) sentinels.

(** The poster a returned dictionary carries. *)
Definition poster_of (d : dict) : pyval :=
  schemas.field d "poster_path" PNone.

(** The first character of [s] does not come back later in [s]. *)
Fixpoint char_in (c : ascii) (s : string) : bool :=
  match s with
  | "" => false
  | String c' s' => Ascii.eqb c c' || char_in c s'
  end.

Definition head_unique (s : string) : bool :=
  match s with
  | "" => false
  | String c s' => negb (char_in c s')
  end.

(** What it means for a listing to leave placeholders out: no returned
    dictionary carries a poster that contains one of the sentinels. *)
Definition excludes_placeholders (sentinels : list string)
  (r : result (list dict)) : Prop :=
  forall l, r = Ok l ->
    forall d p, In d l -> poster_of d = PStr p ->
                is_placeholder sentinels p = false.

(** The common shape of the two discover handlers once the chain has
    answered; [douban_movies] and [douban_tvs] unfold to it. *)
Definition discover_body {MI : MediaInfoClass} (ok : MediaInfo -> bool)
  (r : result pyval) : result (list dict) :=
  found <- r ;;
  if negb (truthy found) then Ok []
  else
    items <- py_iter found ;;
    Ok (map to_dict (filter ok (map from_douban items))).

(** The chain call [douban_credits] makes for a media type. *)
Definition chain_credits (chain : DoubanChain.t) (mediatype : MediaType)
  : string -> Z -> result pyval :=
  match mediatype with
  | MOVIE => DoubanChain.movie_credits chain
  | TV => DoubanChain.tv_credits chain
  end.

(** The chain call [douban_recommend] makes for a media type. *)
Definition chain_recommend (chain : DoubanChain.t) (mediatype : MediaType)
  : string -> result pyval :=
  match mediatype with
  | MOVIE => DoubanChain.movie_recommend chain
  | TV => DoubanChain.tv_recommend chain
  end.

(** The [uri] a raw credit entry carries, [''] when it has none. *)
Definition uri_of (d : dict) : string :=
  match dict_get d "uri" with
  | Some (PStr u) => u
  | _ => ""
  end.

(** A raw credit entry the handler can turn into a person: no [source] key
    of its own, and a [uri] that is a string when there is one. *)
Definition credit_entry_ok (d : dict) : Prop :=
  dict_has d "source" = false
  /\ (dict_get d "uri" = None \/ exists u, dict_get d "uri" = Some (PStr u)).

(** Sample credit entries: one with the composite URI of the handler's
    comment, one whose URI has no marker, one without URI but with an id. *)
Definition credit_with_marker : dict :=
  [("name", PStr "蒂姆·罗宾斯");
   ("uri", PStr "douban://douban.com/celebrity/1316132?subject_id=27503705")].

Definition credit_without_marker : dict :=
  [("name", PStr "摩根·弗里曼"); ("uri", PStr "no-marker-here")].

Definition credit_without_uri : dict :=
  [("id", PStr "1054395"); ("name", PStr "鲍勃·冈顿")].

(** The person payload of the normalisation example: two (label, value)
    pairs of extra info. *)
Definition sample_pairs : list (string * string) :=
  [("本名", "Jane Doe"); ("职业", "Actor")].

Definition sample_person : dict :=
  [("id", PStr "1054395");
   ("title", PStr "Jane Doe");
   ("cover_img", PDict [("url", PStr "https://img1.doubanio.com/view/celebrity/raw/public/p17525.jpg")]);
   ("extra", PDict [("short_info", PStr "Actor");
                    ("info", PList (map raw_pair sample_pairs))])].

(** ** The remaining handlers of the router *)

(** [x or y] *)
Definition py_or (x y : pyval) : pyval :=
  if truthy x then x else y.

(** The calls of [DoubanChain] behind the person credits and the ranked
    listings. *)
Module DoubanChainLists.

Record t : Type := {
  person_credits : Z -> Z -> result pyval;
  movie_top250 : Z -> Z -> result pyval;
  tv_weekly_chinese : Z -> Z -> result pyval;
  tv_weekly_global : Z -> Z -> result pyval;
  tv_animation : Z -> Z -> result pyval;
  movie_hot : Z -> Z -> result pyval;
  tv_hot : Z -> Z -> result pyval
}.

End DoubanChainLists.

Section RankedEndpoints.

Context {MI : MediaInfoClass}.
Variable chain : DoubanChainLists.t.

(** GET /person/credits/{person_id} *)
Definition douban_person_credits (person_id page : Z) : result (list dict) :=
  works <- DoubanChainLists.person_credits chain person_id page ;;
  if negb (truthy works) then Ok []
  else
    items <- py_iter works ;;
    mapM (fun work =>
            subject <- py_get work "subject" PNone ;;
            Ok (to_dict (from_douban subject)))
         items.

(** GET /movie_top250 *)
Definition movie_top250 (page count : Z) : result (list dict) :=
  found <- DoubanChainLists.movie_top250 chain page count ;;
  let movies := py_or found (PList []) in
  items <- py_iter movies ;;
  Ok (map (fun movie => to_dict (from_douban movie)) items).

(** GET /tv_weekly_chinese *)
Definition tv_weekly_chinese (page count : Z) : result (list dict) :=
  found <- DoubanChainLists.tv_weekly_chinese chain page count ;;
  let tvs := py_or found (PList []) in
  items <- py_iter tvs ;;
  Ok (map (fun tv => to_dict (from_douban tv)) items).

(** GET /tv_weekly_global *)
Definition tv_weekly_global (page count : Z) : result (list dict) :=
  found <- DoubanChainLists.tv_weekly_global chain page count ;;
  let tvs := py_or found (PList []) in
  items <- py_iter tvs ;;
  Ok (map (fun tv => to_dict (from_douban tv)) items).

(** GET /tv_animation *)
Definition tv_animation (page count : Z) : result (list dict) :=
  found <- DoubanChainLists.tv_animation chain page count ;;
  let tvs := py_or found (PList []) in
  items <- py_iter tvs ;;
  Ok (map (fun tv => to_dict (from_douban tv)) items).

(** GET /movie_hot *)
Definition movie_hot (page count : Z) : result (list dict) :=
  found <- DoubanChainLists.movie_hot chain page count ;;
  let movies := py_or found (PList []) in
  items <- py_iter movies ;;
  Ok (map (fun movie => to_dict (from_douban movie)) items).

(** GET /tv_hot *)
Definition tv_hot (page count : Z) : result (list dict) :=
  found <- DoubanChainLists.tv_hot chain page count ;;
  let tvs := py_or found (PList []) in
  items <- py_iter tvs ;;
  Ok (map (fun tv => to_dict (from_douban tv)) items).

End RankedEndpoints.

(** A chain of listings whose every call hands back the same payload. *)
Definition const_lists (v : pyval) : DoubanChainLists.t :=
  {| DoubanChainLists.person_credits := fun _ _ => Ok v;
     DoubanChainLists.movie_top250 := fun _ _ => Ok v;
     DoubanChainLists.tv_weekly_chinese := fun _ _ => Ok v;
     DoubanChainLists.tv_weekly_global := fun _ _ => Ok v;
     DoubanChainLists.tv_animation := fun _ _ => Ok v;
     DoubanChainLists.movie_hot := fun _ _ => Ok v;
     DoubanChainLists.tv_hot := fun _ _ => Ok v |}.


(** [l] is [l'] with some items left out, the others in their order. *)
Inductive subseq {A : Type} : list A -> list A -> Prop :=
| subseq_nil : subseq [] []
| subseq_skip x l l' : subseq l l' -> subseq l (x :: l')
| subseq_take x l l' : subseq l l' -> subseq (x :: l) (x :: l').

(** What the listings without poster condition return for a chain answer:
    nothing for a falsy one, otherwise one dictionary per item, in order. *)
Definition unfiltered {MI : MediaInfoClass} (r : result pyval)
  : result (list dict) :=
  found <- r ;;
  if truthy found then
    items <- py_iter found ;;
    Ok (map (fun item => to_dict (from_douban item)) items)
  else Ok [].

(** The attributes of a person other than its id and source, as a raw
    credit entry gives them. *)
Definition passes_through (d : dict) (p : schemas.MediaPerson) : Prop :=
  schemas.name p = schemas.field d "name" PNone
  /\ schemas.avatar p = schemas.field d "avatar" PNone
  /\ schemas.biography p = schemas.field d "biography" PNone
  /\ schemas.also_known_as p = schemas.field d "also_known_as" (PList []).

(** Sample payloads: a credit entry whose [uri] is null, one that brings a
    [source] of its own, a work of a person with and without its subject,
    and a person without extra information or cover. *)
Definition credit_null_uri : dict :=
  [("name", PStr "威廉·桑德勒"); ("uri", PNone)].

Definition credit_with_source : dict :=
  [("name", PStr "克兰西·布朗"); ("source", PStr "imdb")].

Definition work_with_subject : pyval :=
  PDict [("roles", PList [PStr "演员"]); ("subject", real_entry)].

Definition work_without_subject : pyval :=
  PDict [("roles", PList [PStr "演员"])].

Definition bare_person : dict :=
  [("id", PStr "1054395"); ("title", PStr "Jane Doe")].

Definition person_null_cover : dict :=
  [("id", PStr "1054395"); ("title", PStr "Jane Doe"); ("cover_img", PNone)].

(** An item that is no dictionary, or whose [uri] is there without being a
    string. *)
Definition malformed_credit (x : pyval) : Prop :=
  (forall d, x <> PDict d)
  \/ (exists d v, x = PDict d /\ dict_get d "uri" = Some v
                  /\ forall u, v <> PStr u).

(** The dictionary a payload holds under a key, empty when the key is
    missing. *)
Definition sub_dict (d : dict) (k : string) : dict :=
  match dict_get d k with
  | Some (PDict e) => e
  | _ => []
  end.

(** The key is missing or holds a dictionary. *)
Definition absent_or_dict (d : dict) (k : string) : Prop :=
  dict_get d k = None \/ exists e, dict_get d k = Some (PDict e).

Definition person_null_extra : dict :=
  [("id", PStr "1054395"); ("title", PStr "Jane Doe"); ("extra", PNone)].

(** * Facts about strings *)

Section StringFacts.

Local Open Scope string_scope.

Lemma append_assoc (a b c : string) : (a ++ b) ++ c = a ++ (b ++ c).
Proof. induction a as [|x a IH]; simpl; [reflexivity | now rewrite IH]. Qed.

Lemma append_empty_r (a : string) : a ++ "" = a.
Proof. induction a as [|x a IH]; simpl; [reflexivity | now rewrite IH]. Qed.

Lemma length_append (a b : string) :
  String.length (a ++ b) = String.length a + String.length b.
Proof. induction a as [|x a IH]; simpl; [reflexivity | now rewrite IH]. Qed.

Lemma length_zero (s : string) : String.length s = 0 -> s = "".
Proof. destruct s; [reflexivity | discriminate]. Qed.

(** Two ways of cutting one string share the shorter left part. *)
Lemma append_cut (a b c d : string) :
  a ++ b = c ++ d -> String.length a <= String.length c ->
  exists x, c = a ++ x /\ b = x ++ d.
Proof.
  revert c; induction a as [|x a IH]; intros c H L.
  - exists c. now simpl in *.
  - destruct c as [|y c]; simpl in L; [lia|].
    simpl in H. injection H as -> H.
    destruct (IH c H) as [z [-> ->]]; [lia|].
    now exists z.
Qed.

Lemma strip_prefix_Some (p s r : string) :
  strip_prefix p s = Some r <-> s = p ++ r.
Proof.
  revert s; induction p as [|a p IH]; intros s; simpl.
  - split; [now intros [= ->] | now intros ->].
  - destruct s as [|b s].
    + split; discriminate.
    + destruct (Ascii.eqb_spec a b) as [->|N].
      * rewrite IH. split; [now intros -> | now intros [= ->]].
      * split; [discriminate | intros [= E _]; now destruct N].
Qed.

Lemma strip_prefix_append (p r : string) : strip_prefix p (p ++ r) = Some r.
Proof. now apply strip_prefix_Some. Qed.

Lemma partition_Some (sep s a b : string) :
  partition sep s = Some (a, b) -> s = a ++ sep ++ b.
Proof.
  revert a b; induction s as [|c s IH]; intros a b.
  - simpl. destruct (strip_prefix sep "") eqn:E; [|discriminate].
    intros [= <- <-]. now apply strip_prefix_Some in E.
  - simpl. destruct (strip_prefix sep (String c s)) eqn:E.
    + intros [= <- <-]. now apply strip_prefix_Some in E.
    + destruct (partition sep s) as [[a' b']|]; [|discriminate].
      intros [= <- <-]. simpl. now rewrite <- (IH a' b' eq_refl).
Qed.

Lemma partition_None (sep s : string) :
  partition sep s = None -> ~ occurs sep s.
Proof.
  induction s as [|c s IH]; simpl.
  - destruct (strip_prefix sep "") eqn:E; [discriminate|].
    intros _ (a & b & H). destruct a; simpl in H.
    + apply strip_prefix_Some in H. congruence.
    + discriminate.
  - destruct (strip_prefix sep (String c s)) eqn:E; [discriminate|].
    destruct (partition sep s) as [[a' b']|] eqn:P; [discriminate|].
    intros _ (a & b & H). destruct a as [|x a]; simpl in H.
    + apply strip_prefix_Some in H. congruence.
    + injection H as _ H. apply IH; [reflexivity|]. now exists a, b.
Qed.

Lemma contains_true (sub s : string) :
  contains sub s = true <-> occurs sub s.
Proof.
  unfold contains. destruct (partition sub s) as [[a b]|] eqn:P.
  - split; [|reflexivity]. intros _. exists a, b. now apply partition_Some.
  - split; [discriminate|]. intros H. now apply partition_None in P.
Qed.

Lemma contains_false (sub s : string) :
  contains sub s = false <-> ~ occurs sub s.
Proof.
  rewrite <- contains_true. destruct (contains sub s); split; congruence.
Qed.

End StringFacts.

(** * Splitting on a separator *)

Section SplitFacts.

Local Open Scope string_scope.

Lemma partition_empty (sep : string) : sep <> "" -> partition sep "" = None.
Proof. destruct sep; [congruence | reflexivity]. Qed.

Lemma partition_shorter (sep s a b : string) :
  sep <> "" -> partition sep s = Some (a, b) ->
  String.length b < String.length s.
Proof.
  intros N P. apply partition_Some in P. subst s.
  rewrite !length_append. destruct sep; [congruence | simpl; lia].
Qed.

Lemma index_last_cons {A : Type} (x : A) (l : list A) (r : A) :
  index_last l = Ok r -> index_last (x :: l) = Ok r.
Proof. destruct l; [discriminate | now intros H]. Qed.

(** With fuel for every character, the last piece holds no separator and
    sits right after one, unless the string had none. *)
Lemma split_fuel_last (sep : string) (n : nat) (s : string) :
  sep <> "" -> String.length s <= n ->
  exists r,
    index_last (split_fuel n sep s) = Ok r
    /\ contains sep r = false
    /\ ((contains sep s = false /\ r = s)
        \/ exists pre, s = pre ++ sep ++ r).
Proof.
  intros N. revert s. induction n as [|n IH]; intros s L.
  - assert (s = "") as -> by (apply length_zero; lia).
    exists "". simpl. unfold contains. rewrite partition_empty by assumption.
    repeat split. now left.
  - simpl. destruct (partition sep s) as [[a b]|] eqn:P.
    + pose proof (partition_shorter _ _ _ _ N P) as Lb.
      destruct (IH b) as (r & Hr & Cr & Hb); [lia|].
      exists r. split; [now apply index_last_cons|]. split; [assumption|].
      right. apply partition_Some in P.
      destruct Hb as [[_ ->]|[pre ->]].
      * now exists a.
      * exists (a ++ sep ++ pre). now rewrite !append_assoc.
    + exists s. simpl. unfold contains. rewrite P. repeat split. now left.
Qed.

Lemma char_in_append (c : ascii) (a b : string) :
  char_in c (a ++ String c b) = true.
Proof.
  induction a as [|x a IH]; simpl.
  - now rewrite Ascii.eqb_refl.
  - rewrite IH. apply orb_true_r.
Qed.

(** A separator whose first character does not come back cannot overlap
    itself, so a piece without separator right after one follows the last
    one. *)
Lemma after_separator_is_last (sep pre r : string) :
  head_unique sep = true -> contains sep r = false ->
  after_last_occurrence sep (pre ++ sep ++ r) r.
Proof.
  intros U C. exists pre. split; [reflexivity|]. intros pre' r' H.
  destruct (Nat.le_gt_cases (String.length pre') (String.length pre))
    as [|G]; [assumption | exfalso].
  apply contains_false in C.
  destruct (append_cut _ _ _ _ H) as (x & -> & H1); [lia|].
  rewrite length_append in G.
  destruct (Nat.le_gt_cases (String.length sep) (String.length x)) as [Lx|Lx].
  - destruct (append_cut _ _ _ _ H1 Lx) as (y & -> & ->).
    apply C. now exists y, r'.
  - symmetry in H1.
    destruct (append_cut _ _ _ _ H1) as (y & E & H2); [lia|].
    destruct sep as [|c t]; [discriminate|]. simpl in U.
    destruct x as [|c' x]; [simpl in G; lia|].
    simpl in E. injection E as <- E.
    destruct y as [|d y].
    + rewrite E, append_empty_r in Lx. simpl in Lx. lia.
    + simpl in H2. injection H2 as <- _.
      rewrite E, char_in_append in U. discriminate.
Qed.

(** [uri.split('?subject_id=')[-1]] never raises and is the identifier the
    ID extractor describes. *)
Lemma split_marker_last (uri : string) :
  exists r,
    (parts <- split subject_marker uri ;; index_last parts) = Ok r
    /\ extracted_id uri r.
Proof.
  destruct (split_fuel_last subject_marker (String.length uri) uri)
    as (r & Hr & Cr & Hs); [discriminate | lia |].
  exists r. split; [exact Hr|].
  destruct Hs as [[C ->]|[pre ->]].
  - right. split; [now apply contains_false | reflexivity].
  - left. split; [now exists pre, r|].
    now apply after_separator_is_last.
Qed.

End SplitFacts.

(** * The listing handlers *)

Section ListingFacts.

Context {MI : MediaInfoClass}.

Lemma poster_of_to_dict (m : MediaInfo) :
  poster_of (to_dict m) = of_option (poster_path m).
Proof. unfold poster_of, schemas.field. now rewrite to_dict_poster_path. Qed.

Lemma movie_poster_ok_sentinels (m : MediaInfo) :
  movie_poster_ok m =
  match poster_path m with
  | Some p => negb (p =? "")%string && negb (is_placeholder movie_sentinels p)
  | None => false
  end.
Proof.
  unfold movie_poster_ok. destruct (poster_path m) as [p|]; [|reflexivity].
  simpl. rewrite orb_false_r, negb_orb. now rewrite andb_assoc.
Qed.

Lemma tv_poster_ok_sentinels (m : MediaInfo) :
  tv_poster_ok m =
  match poster_path m with
  | Some p => negb (p =? "")%string && negb (is_placeholder tv_sentinels p)
  | None => false
  end.
Proof.
  unfold tv_poster_ok. destruct (poster_path m) as [p|]; [|reflexivity].
  simpl. rewrite orb_false_r, !negb_orb. now rewrite !andb_assoc.
Qed.

Lemma discover_body_list (ok : MediaInfo -> bool) (items : list pyval) :
  discover_body ok (Ok (PList items))
  = Ok (map to_dict (filter ok (map from_douban items))).
Proof. destruct items; reflexivity. Qed.

Lemma discover_body_shape (ok : MediaInfo -> bool) (r : result pyval)
  (l : list dict) :
  discover_body ok r = Ok l ->
  exists medias, l = map to_dict (filter ok medias).
Proof.
  unfold discover_body. destruct r as [found|e]; simpl; [|discriminate].
  destruct (truthy found); simpl.
  - destruct (py_iter found) as [items|e]; simpl; [|discriminate].
    intros [= <-]. now exists (map from_douban items).
  - intros [= <-]. now exists [].
Qed.

Lemma douban_movies_body chain sort tags page count :
  douban_movies chain sort tags page count
  = discover_body movie_poster_ok
      (DoubanChain.douban_discover chain MOVIE sort tags page count).
Proof. reflexivity. Qed.

Lemma douban_tvs_body chain sort tags page count :
  douban_tvs chain sort tags page count
  = discover_body tv_poster_ok
      (DoubanChain.douban_discover chain TV sort tags page count).
Proof. reflexivity. Qed.

(** Every dictionary that passes a poster condition carries a poster the
    condition accepts. *)
Lemma kept_posters (ok : MediaInfo -> bool) (medias : list MediaInfo)
  (d : dict) :
  In d (map to_dict (filter ok medias)) ->
  exists m, ok m = true /\ poster_of d = of_option (poster_path m).
Proof.
  intros H. apply in_map_iff in H. destruct H as (m & <- & H).
  apply filter_In in H. exists m. split; [tauto | apply poster_of_to_dict].
Qed.

Lemma filter_skip (ok : MediaInfo -> bool) (pre post : list pyval)
  (raw : pyval) :
  ok (from_douban raw) = false ->
  map to_dict (filter ok (map from_douban (pre ++ raw :: post)))
  = map to_dict (filter ok (map from_douban pre))
    ++ map to_dict (filter ok (map from_douban post)).
Proof.
  intros H. rewrite map_app, filter_app, map_app. simpl. now rewrite H.
Qed.

Lemma filter_keep (ok : MediaInfo -> bool) (pre post : list pyval)
  (raw : pyval) :
  ok (from_douban raw) = true ->
  map to_dict (filter ok (map from_douban (pre ++ raw :: post)))
  = map to_dict (filter ok (map from_douban pre))
    ++ to_dict (from_douban raw)
       :: map to_dict (filter ok (map from_douban post)).
Proof.
  intros H. rewrite map_app, filter_app, map_app. simpl. now rewrite H.
Qed.

End ListingFacts.

(** C1.  In the movie discover listing, an entry whose normalised poster
    contains the sentinel [movie_large.jpg] is left out of the returned list
    (the entries around it are listed as before, and no returned dictionary
    carries such a poster), while an entry at the same place whose poster is
    non-empty and contains neither movie sentinel is returned. *)
Theorem douban_movies_placeholder_filter {MI : MediaInfoClass}
  (chain : DoubanChain.t) (sort tags : string) (page count : Z)
  (pre post : list pyval) (raw : pyval) (p : string) :
  DoubanChain.douban_discover chain MOVIE sort tags page count
    = Ok (PList (pre ++ raw :: post)) ->
  poster_path (from_douban raw) = Some p ->
  let listed l := map to_dict (filter movie_poster_ok (map from_douban l)) in
  (contains "movie_large.jpg" p = true ->
     douban_movies chain sort tags page count = Ok (listed pre ++ listed post))
  /\ (p <> "" ->
      contains "movie_large.jpg" p = false ->
      contains "tv_normal.png" p = false ->
      douban_movies chain sort tags page count
        = Ok (listed pre ++ to_dict (from_douban raw) :: listed post))
  /\ (forall l d q,
        douban_movies chain sort tags page count = Ok l ->
        In d l -> poster_of d = PStr q ->
        contains "movie_large.jpg" q = false).
Proof.
  intros Hc Hp listed. rewrite douban_movies_body, Hc, discover_body_list.
  repeat split.
  - intros S. f_equal. apply filter_skip.
    unfold movie_poster_ok. rewrite Hp, S. simpl. now rewrite andb_false_r.
  - intros N S1 S2. f_equal. apply filter_keep.
    unfold movie_poster_ok. rewrite Hp, S1, S2. simpl.
    destruct (String.eqb_spec p ""); [contradiction | reflexivity].
  - intros l d q [= <-] Hd Hq.
    destruct (kept_posters _ _ _ Hd) as (m & Hm & E).
    rewrite E in Hq. unfold movie_poster_ok in Hm.
    destruct (poster_path m) as [p'|]; [|discriminate].
    simpl in Hq. injection Hq as ->.
    destruct (contains "movie_large.jpg" q); [|reflexivity].
    simpl in Hm. now rewrite andb_false_r in Hm.
Qed.

Lemma douban_movies_placeholder_filter_witness :
  douban_movies (const_chain (PList [placeholder_entry; real_entry]))
    "R" "" 1 30
  = Ok [to_dict (from_douban real_entry)].
Proof.
  exact (proj1 (douban_movies_placeholder_filter
                  (const_chain (PList [placeholder_entry; real_entry]))
                  "R" "" 1%Z 30%Z [] [real_entry] placeholder_entry
                  placeholder_poster eq_refl eq_refl)
               eq_refl).
Defined.

Section PosterConditions.

Context {MI : MediaInfoClass}.

Lemma movie_poster_ok_true (m : MediaInfo) :
  movie_poster_ok m = true ->
  exists p, poster_path m = Some p /\ p <> ""%string
            /\ is_placeholder movie_sentinels p = false.
Proof.
  rewrite movie_poster_ok_sentinels.
  destruct (poster_path m) as [p|]; [|discriminate].
  intros H. apply andb_prop in H. destruct H as [N S].
  exists p. repeat split.
  - intros ->. discriminate N.
  - now destruct (is_placeholder movie_sentinels p).
Qed.

Lemma tv_poster_ok_true (m : MediaInfo) :
  tv_poster_ok m = true ->
  exists p, poster_path m = Some p /\ p <> ""%string
            /\ is_placeholder tv_sentinels p = false.
Proof.
  rewrite tv_poster_ok_sentinels.
  destruct (poster_path m) as [p|]; [|discriminate].
  intros H. apply andb_prop in H. destruct H as [N S].
  exists p. repeat split.
  - intros ->. discriminate N.
  - now destruct (is_placeholder tv_sentinels p).
Qed.

Lemma poster_missing_movie (m : MediaInfo) :
  poster_path m = None \/ poster_path m = Some ""%string ->
  movie_poster_ok m = false.
Proof. unfold movie_poster_ok. now intros [-> | ->]. Qed.

Lemma poster_missing_tv (m : MediaInfo) :
  poster_path m = None \/ poster_path m = Some ""%string ->
  tv_poster_ok m = false.
Proof. unfold tv_poster_ok. now intros [-> | ->]. Qed.

(** A returned dictionary of a discover listing carries a non-empty poster
    with none of the listing's sentinels in it. *)
Lemma discover_body_posters (ok : MediaInfo -> bool) (sentinels : list string)
  (r : result pyval) (l : list dict) :
  (forall m, ok m = true ->
     exists p, poster_path m = Some p /\ p <> ""%string
               /\ is_placeholder sentinels p = false) ->
  discover_body ok r = Ok l ->
  Forall (fun d => exists p, poster_of d = PStr p /\ p <> ""%string
                             /\ is_placeholder sentinels p = false) l.
Proof.
  intros Hok H. apply discover_body_shape in H. destruct H as (medias & ->).
  apply Forall_forall. intros d Hd.
  destruct (kept_posters _ _ _ Hd) as (m & Hm & E).
  destruct (Hok m Hm) as (p & Hp & N & S).
  exists p. rewrite E, Hp. now repeat split.
Qed.

End PosterConditions.

(** C2, as the handlers have it.  The two discover listings leave out every
    entry whose normalised poster contains one of that listing's sentinels,
    the condition being applied to the normalised entries and before the
    dictionaries are returned; the showing listing applies no poster
    condition and returns every normalised entry. *)
Theorem discover_listings_exclude_placeholders {MI : MediaInfoClass}
  (chain : DoubanChain.t) (sort tags : string) (page count : Z) :
  (excludes_placeholders movie_sentinels
     (douban_movies chain sort tags page count)
   /\ forall items,
        DoubanChain.douban_discover chain MOVIE sort tags page count
          = Ok (PList items) ->
        douban_movies chain sort tags page count
          = Ok (map to_dict (filter movie_poster_ok (map from_douban items))))
  /\ (excludes_placeholders tv_sentinels
        (douban_tvs chain sort tags page count)
      /\ forall items,
           DoubanChain.douban_discover chain TV sort tags page count
             = Ok (PList items) ->
           douban_tvs chain sort tags page count
             = Ok (map to_dict (filter tv_poster_ok (map from_douban items))))
  /\ (forall items,
        DoubanChain.movie_showing chain page count = Ok (PList items) ->
        movie_showing chain page count
          = Ok (map to_dict (map from_douban items))).
Proof.
  repeat split.
  - intros l H d p Hd Hp. rewrite douban_movies_body in H.
    pose proof (discover_body_posters _ _ _ _ movie_poster_ok_true H) as F.
    rewrite Forall_forall in F. destruct (F d Hd) as (q & Hq & _ & S).
    congruence.
  - intros items H. now rewrite douban_movies_body, H, discover_body_list.
  - intros l H d p Hd Hp. rewrite douban_tvs_body in H.
    pose proof (discover_body_posters _ _ _ _ tv_poster_ok_true H) as F.
    rewrite Forall_forall in F. destruct (F d Hd) as (q & Hq & _ & S).
    congruence.
  - intros items H. now rewrite douban_tvs_body, H, discover_body_list.
  - intros items H. unfold movie_showing. rewrite H. now destruct items.
Qed.

Lemma discover_listings_exclude_placeholders_witness :
  movie_showing (const_chain (PList [placeholder_entry; real_entry])) 1 30
  = Ok [to_dict (from_douban placeholder_entry);
        to_dict (from_douban real_entry)].
Proof.
  exact (proj2 (proj2 (discover_listings_exclude_placeholders
                         (const_chain (PList [placeholder_entry; real_entry]))
                         "R" "" 1%Z 30%Z))
               [placeholder_entry; real_entry] eq_refl).
Defined.

(** C2, as the claim has it, fails: the showing listing returns an entry
    whose poster is the movie placeholder. *)
Lemma movie_showing_returns_placeholder :
  movie_showing (const_chain (PList [placeholder_entry])) 1 30
    = Ok [to_dict (from_douban placeholder_entry)]
  /\ poster_of (to_dict (from_douban placeholder_entry))
     = PStr placeholder_poster
  /\ is_placeholder movie_sentinels placeholder_poster = true
  /\ ~ excludes_placeholders movie_sentinels
         (movie_showing (const_chain (PList [placeholder_entry])) 1 30).
Proof.
  repeat split.
  intros H.
  specialize (H _ eq_refl (to_dict (from_douban placeholder_entry))
                placeholder_poster (or_introl eq_refl) eq_refl).
  discriminate H.
Qed.

(** C8.  Every dictionary the two discover listings return carries a
    non-empty poster path, and an entry whose normalised poster is null or
    the empty string is left out (the entries around it are listed as
    before). *)
Theorem discover_listings_posters_nonempty {MI : MediaInfoClass}
  (chain : DoubanChain.t) (sort tags : string) (page count : Z) :
  (forall l, douban_movies chain sort tags page count = Ok l ->
     Forall (fun d => exists p, poster_of d = PStr p /\ p <> ""%string) l)
  /\ (forall l, douban_tvs chain sort tags page count = Ok l ->
        Forall (fun d => exists p, poster_of d = PStr p /\ p <> ""%string) l)
  /\ (forall pre raw post,
        DoubanChain.douban_discover chain MOVIE sort tags page count
          = Ok (PList (pre ++ raw :: post)) ->
        poster_path (from_douban raw) = None
        \/ poster_path (from_douban raw) = Some ""%string ->
        douban_movies chain sort tags page count
          = Ok (map to_dict (filter movie_poster_ok (map from_douban pre))
                ++ map to_dict (filter movie_poster_ok (map from_douban post))))
  /\ (forall pre raw post,
        DoubanChain.douban_discover chain TV sort tags page count
          = Ok (PList (pre ++ raw :: post)) ->
        poster_path (from_douban raw) = None
        \/ poster_path (from_douban raw) = Some ""%string ->
        douban_tvs chain sort tags page count
          = Ok (map to_dict (filter tv_poster_ok (map from_douban pre))
                ++ map to_dict (filter tv_poster_ok (map from_douban post)))).
Proof.
  repeat split.
  - intros l H. rewrite douban_movies_body in H.
    pose proof (discover_body_posters _ _ _ _ movie_poster_ok_true H) as F.
    eapply Forall_impl; [|exact F]. intros d (p & Hp & N & _). now exists p.
  - intros l H. rewrite douban_tvs_body in H.
    pose proof (discover_body_posters _ _ _ _ tv_poster_ok_true H) as F.
    eapply Forall_impl; [|exact F]. intros d (p & Hp & N & _). now exists p.
  - intros pre raw post H E.
    rewrite douban_movies_body, H, discover_body_list. f_equal.
    apply filter_skip. now apply poster_missing_movie.
  - intros pre raw post H E.
    rewrite douban_tvs_body, H, discover_body_list. f_equal.
    apply filter_skip. now apply poster_missing_tv.
Qed.

Lemma discover_listings_posters_nonempty_witness :
  douban_tvs (const_chain (PList [no_poster_entry; real_entry])) "R" "" 1 30
  = Ok [to_dict (from_douban real_entry)].
Proof.
  exact (proj2 (proj2 (proj2 (discover_listings_posters_nonempty
                                (const_chain (PList [no_poster_entry; real_entry]))
                                "R" "" 1%Z 30%Z)))
               [] no_poster_entry [real_entry] eq_refl (or_introl eq_refl)).
Defined.

(** C7.  The condition of the TV listing is "non-empty and none of three
    sentinel names inside", that of the movie listing "non-empty and none of
    two"; within each list no name is contained in another, so each one
    counts; and the two lists differ: [tv_normal.png] is looked for by the
    movie listing only, [tv_normal.jpg] and [tv_large.jpg] by the TV listing
    only. *)
Theorem sentinel_sets_per_media_type :
  (forall (MI : MediaInfoClass) (m : MediaInfo),
     movie_poster_ok m =
     match poster_path m with
     | Some p => negb (p =? "")%string && negb (is_placeholder movie_sentinels p)
     | None => false
     end)
  /\ (forall (MI : MediaInfoClass) (m : MediaInfo),
        tv_poster_ok m =
        match poster_path m with
        | Some p => negb (p =? "")%string && negb (is_placeholder tv_sentinels p)
        | None => false
        end)
  /\ (length movie_sentinels = 2 /\ NoDup movie_sentinels)
  /\ (length tv_sentinels = 3 /\ NoDup tv_sentinels)
  /\ (forall a b, In a movie_sentinels -> In b movie_sentinels ->
                  contains a b = true -> a = b)
  /\ (forall a b, In a tv_sentinels -> In b tv_sentinels ->
                  contains a b = true -> a = b)
  /\ (is_placeholder movie_sentinels "tv_normal.png" = true
      /\ is_placeholder tv_sentinels "tv_normal.png" = false)
  /\ (is_placeholder tv_sentinels "tv_normal.jpg" = true
      /\ is_placeholder movie_sentinels "tv_normal.jpg" = false)
  /\ (is_placeholder tv_sentinels "tv_large.jpg" = true
      /\ is_placeholder movie_sentinels "tv_large.jpg" = false).
Proof.
  split; [exact (@movie_poster_ok_sentinels)|].
  split; [exact (@tv_poster_ok_sentinels)|].
  split.
  { split; [reflexivity|].
    repeat constructor; simpl; intuition discriminate. }
  split.
  { split; [reflexivity|].
    repeat constructor; simpl; intuition discriminate. }
  split.
  { intros a b Ha Hb. simpl in Ha, Hb.
    repeat (destruct Ha as [<-|Ha]; [|]); try contradiction;
      repeat (destruct Hb as [<-|Hb]; [|]); try contradiction;
        vm_compute; congruence. }
  split.
  { intros a b Ha Hb. simpl in Ha, Hb.
    repeat (destruct Ha as [<-|Ha]; [|]); try contradiction;
      repeat (destruct Hb as [<-|Hb]; [|]); try contradiction;
        vm_compute; congruence. }
  repeat split.
Qed.

(** C6.  The detail lookup returns the dictionary of the entry it found
    whatever the poster is: no poster condition is applied, and the
    dictionary carries the normalised poster path as it is. *)
Theorem douban_info_returns_found {MI : MediaInfoClass}
  (chain : DoubanChain.t) (doubanid : string) (found : pyval) :
  DoubanChain.douban_info chain doubanid = Ok found ->
  truthy found = true ->
  douban_info chain doubanid = Ok (inl (to_dict (from_douban found)))
  /\ poster_of (to_dict (from_douban found))
     = of_option (poster_path (from_douban found)).
Proof.
  intros H T. unfold douban_info. rewrite H. simpl. rewrite T.
  split; [reflexivity | apply poster_of_to_dict].
Qed.

Lemma douban_info_returns_found_witness :
  douban_info (const_chain placeholder_entry) "1292052"
    = Ok (inl (to_dict (from_douban placeholder_entry)))
  /\ poster_of (to_dict (from_douban placeholder_entry))
     = PStr placeholder_poster.
Proof.
  exact (douban_info_returns_found (const_chain placeholder_entry) "1292052"
           placeholder_entry eq_refl eq_refl).
Defined.

(** C5.  When the chain reports absence (a falsy payload), the person lookup
    returns the empty person of the provider and the detail lookup the empty
    media entry; neither raises. *)
Theorem lookups_return_empty_when_absent {MI : MediaInfoClass}
  (chain : DoubanChain.t) :
  (forall person_id absent,
     DoubanChain.person_detail chain person_id = Ok absent ->
     truthy absent = false ->
     douban_person chain person_id
     = Ok {| schemas.source := PStr "douban";
             schemas.id := PNone;
             schemas.name := PNone;
             schemas.avatar := PNone;
             schemas.biography := PNone;
             schemas.also_known_as := PList [] |})
  /\ (forall doubanid absent,
        DoubanChain.douban_info chain doubanid = Ok absent ->
        truthy absent = false ->
        douban_info chain doubanid
        = Ok (inr {| schemas.info_id := PNone;
                     schemas.info_type := PNone;
                     schemas.info_title := PNone;
                     schemas.info_poster_path := PNone |})).
Proof.
  split.
  - intros person_id absent H T. unfold douban_person.
    rewrite H. simpl. now rewrite T.
  - intros doubanid absent H T. unfold douban_info.
    rewrite H. simpl. now rewrite T.
Qed.

Lemma lookups_return_empty_when_absent_witness :
  douban_person (const_chain PNone) 1054395
  = Ok {| schemas.source := PStr "douban";
          schemas.id := PNone;
          schemas.name := PNone;
          schemas.avatar := PNone;
          schemas.biography := PNone;
          schemas.also_known_as := PList [] |}
  /\ douban_info (const_chain (PDict [])) "0"
     = Ok (inr {| schemas.info_id := PNone;
                  schemas.info_type := PNone;
                  schemas.info_title := PNone;
                  schemas.info_poster_path := PNone |}).
Proof.
  split.
  - exact (proj1 (lookups_return_empty_when_absent (const_chain PNone))
                 1054395%Z PNone eq_refl eq_refl).
  - exact (proj2 (lookups_return_empty_when_absent (const_chain (PDict [])))
                 "0" (PDict []) eq_refl eq_refl).
Defined.

(** * The credits handler *)

Section CreditsFacts.

Lemma mapM_Forall2 {A B : Type} (f : A -> result B) (R : A -> B -> Prop)
  (l : list A) :
  Forall (fun x => exists y, f x = Ok y /\ R x y) l ->
  exists ys, mapM f l = Ok ys /\ Forall2 R l ys.
Proof.
  induction 1 as [|x l (y & Hy & Rxy) _ (ys & Hys & F)].
  - exists []. now split.
  - exists (y :: ys). simpl. rewrite Hy. simpl. rewrite Hys. simpl.
    split; [reflexivity | now constructor].
Qed.

(** Two passes over a list, the second over what the first produced. *)
Lemma mapM_two_passes {A B C : Type} (f : A -> result B)
  (g : B -> result C) (T : A -> C -> Prop) (l : list A) :
  Forall (fun x => exists y z, f x = Ok y /\ g y = Ok z /\ T x z) l ->
  exists ys zs,
    mapM f l = Ok ys /\ mapM g ys = Ok zs /\ Forall2 T l zs.
Proof.
  induction 1 as [|x l (y & z & Hy & Hz & Txz) _ (ys & zs & Hys & Hzs & F)].
  - exists [], []. now repeat split.
  - exists (y :: ys), (z :: zs). simpl. rewrite Hy. simpl. rewrite Hys.
    simpl. rewrite Hz. simpl. rewrite Hzs. simpl.
    repeat split. now constructor.
Qed.

Lemma dict_get_set_same (d : dict) (k : string) (v : pyval) :
  dict_get (dict_set d k v) k = Some v.
Proof.
  induction d as [|[k' v'] d IH]; simpl.
  - now rewrite String.eqb_refl.
  - destruct (String.eqb_spec k' k) as [->|N]; simpl.
    + now rewrite String.eqb_refl.
    + apply String.eqb_neq in N. now rewrite N.
Qed.

Lemma dict_get_set_other (d : dict) (k k2 : string) (v : pyval) :
  k <> k2 -> dict_get (dict_set d k v) k2 = dict_get d k2.
Proof.
  intros N. induction d as [|[k' v'] d IH]; simpl.
  - apply String.eqb_neq in N. now rewrite N.
  - destruct (String.eqb_spec k' k) as [->|N']; simpl.
    + apply String.eqb_neq in N. now rewrite N.
    + now rewrite IH.
Qed.

Lemma no_marker_in_empty : ~ occurs subject_marker "".
Proof. now apply contains_false. Qed.

Lemma extracted_id_empty (r : string) : extracted_id "" r -> r = ""%string.
Proof.
  intros [[O _]|[_ E]]; [now destruct no_marker_in_empty | exact E].
Qed.

(** One turn of the loop on a well-formed entry. *)
Lemma update_id_entry (d : dict) :
  dict_get d "uri" = None \/ (exists u, dict_get d "uri" = Some (PStr u)) ->
  exists r,
    update_id (PDict d) = Ok (PDict (dict_set d "id" (PStr r)))
    /\ extracted_id (uri_of d) r.
Proof.
  intros W. destruct (split_marker_last (uri_of d)) as (r & Hr & E).
  exists r. split; [|exact E].
  unfold update_id, py_get. unfold uri_of, subject_marker in Hr.
  destruct W as [U|(u & U)]; rewrite U in *; cbn [bind py_split];
    (destruct (split "?subject_id=" _) as [parts|e]; cbn [bind] in *;
     [|discriminate]; now rewrite Hr).
Qed.

(** Building the person from a rewritten entry. *)
Lemma person_of_entry (d : dict) (v : pyval) :
  dict_has d "source" = false ->
  exists p,
    person_of (PDict (dict_set d "id" v)) = Ok p
    /\ schemas.id p = v
    /\ schemas.source p = PStr "douban".
Proof.
  intros S. unfold person_of. simpl.
  assert (dict_has (dict_set d "id" v) "source" = false) as ->.
  { unfold dict_has in *. rewrite dict_get_set_other; [exact S | discriminate]. }
  simpl. eexists. split; [reflexivity|]. split; [|reflexivity].
  simpl. unfold schemas.field. simpl. now rewrite dict_get_set_same.
Qed.

(** The handler on a page of well-formed entries: one person per entry,
    in order, whose id is the identifier embedded in the entry's URI. *)
Lemma douban_credits_ids (chain : DoubanChain.t) (doubanid type_name : string)
  (page : Z) (mediatype : MediaType) (entries : list dict) :
  MediaType_of type_name = Ok mediatype ->
  chain_credits chain mediatype doubanid page
    = Ok (PList (map PDict entries)) ->
  Forall credit_entry_ok entries ->
  exists persons,
    douban_credits chain doubanid type_name page = Ok persons
    /\ Forall2 (fun d p => exists r, schemas.id p = PStr r
                                     /\ extracted_id (uri_of d) r)
         entries persons.
Proof.
  intros HT HC W.
  destruct (mapM_two_passes update_id person_of
              (fun x p => exists d r, x = PDict d /\ schemas.id p = PStr r
                                      /\ extracted_id (uri_of d) r)
              (map PDict entries)) as (updated & persons & HU & HP & F).
  { apply Forall_map. eapply Forall_impl; [|exact W]. intros d [S U].
    destruct (update_id_entry d U) as (r & Hr & E).
    destruct (person_of_entry d (PStr r) S) as (p & Hp & I & _).
    exists (PDict (dict_set d "id" (PStr r))), p.
    repeat split; [exact Hr | exact Hp |]. now exists d, r. }
  exists persons. split.
  - unfold douban_credits. rewrite HT. cbn [bind].
    destruct mediatype; cbn [MediaType_eqb chain_credits] in *;
      rewrite HC; cbn [bind];
      (destruct entries as [|d0 entries0];
       [simpl in F; inversion F; reflexivity|]);
      (assert (truthy (PList (map PDict (d0 :: entries0))) = true) as ->
          by reflexivity);
      cbn [negb py_iter bind]; rewrite HU; cbn [bind]; exact HP.
  - clear - F. revert persons F.
    induction entries as [|d entries IH]; intros persons F;
      inversion F as [|? p ? persons' (d' & r & E & I & X) F']; subst;
      constructor.
    + injection E as <-. now exists r.
    + now apply IH.
Qed.

End CreditsFacts.

(** C3.  For a page of credit entries of either media type, each carrying
    its composite URI, the handler returns one person per entry, in order,
    and the person's id is what follows the last [?subject_id=] of the
    entry's URI, or the URI itself when the marker is not in it; the handler
    does not raise. *)
Theorem douban_credits_id_from_uri (chain : DoubanChain.t)
  (doubanid type_name : string) (page : Z) (mediatype : MediaType)
  (entries : list dict) :
  MediaType_of type_name = Ok mediatype ->
  chain_credits chain mediatype doubanid page
    = Ok (PList (map PDict entries)) ->
  Forall (fun d => dict_has d "source" = false
                   /\ exists u, dict_get d "uri" = Some (PStr u)) entries ->
  exists persons,
    douban_credits chain doubanid type_name page = Ok persons
    /\ Forall2
         (fun d p =>
            exists u r,
              dict_get d "uri" = Some (PStr u)
              /\ schemas.id p = PStr r
              /\ (occurs subject_marker u ->
                  after_last_occurrence subject_marker u r)
              /\ (~ occurs subject_marker u -> r = u))
         entries persons.
Proof.
  intros HT HC W.
  destruct (douban_credits_ids chain doubanid type_name page mediatype entries
              HT HC) as (persons & HP & F).
  { eapply Forall_impl; [|exact W]. intros d [S (u & U)].
    split; [exact S | right; now exists u]. }
  exists persons. split; [exact HP|].
  clear - W F. revert persons F.
  induction W as [|d entries [_ (u & U)] _ IH]; intros persons F;
    inversion F as [|? p ? persons' (r & I & E) F']; subst; constructor.
  - exists u, r. unfold uri_of in E. rewrite U in E.
    repeat split; [exact U | exact I | |].
    + intros O. destruct E as [[_ A]|[N _]]; [exact A | contradiction].
    + intros N. destruct E as [[O _]|[_ R]]; [contradiction | exact R].
  - now apply IH.
Qed.

Lemma douban_credits_id_from_uri_witness :
  exists persons,
    douban_credits
      (const_chain (PList (map PDict [credit_with_marker; credit_without_marker])))
      "1292052" "电影" 1 = Ok persons
    /\ Forall2
         (fun d p =>
            exists u r,
              dict_get d "uri" = Some (PStr u)
              /\ schemas.id p = PStr r
              /\ (occurs subject_marker u ->
                  after_last_occurrence subject_marker u r)
              /\ (~ occurs subject_marker u -> r = u))
         [credit_with_marker; credit_without_marker] persons.
Proof.
  apply (douban_credits_id_from_uri
           (const_chain (PList (map PDict [credit_with_marker; credit_without_marker])))
           "1292052" "电影" 1%Z MOVIE [credit_with_marker; credit_without_marker]).
  - reflexivity.
  - reflexivity.
  - apply Forall_cons; [split; [reflexivity | eexists; reflexivity]|].
    apply Forall_cons; [split; [reflexivity | eexists; reflexivity]|].
    apply Forall_nil.
Defined.

Example douban_credits_sample_ids :
  match douban_credits
          (const_chain (PList (map PDict [credit_with_marker; credit_without_marker])))
          "1292052" "电视剧" 1 with
  | Ok persons => map schemas.id persons
  | Raise _ => []
  end = [PStr "27503705"; PStr "no-marker-here"].
Proof. reflexivity. Qed.

Section IdOverwritten.

Lemma dict_set_set (d : dict) (k : string) (v w : pyval) :
  dict_set (dict_set d k v) k w = dict_set d k w.
Proof.
  induction d as [|[k' v'] d IH]; simpl.
  - now rewrite String.eqb_refl.
  - destruct (String.eqb_spec k' k) as [->|N]; simpl.
    + now rewrite String.eqb_refl.
    + apply String.eqb_neq in N. now rewrite N, IH.
Qed.

(** The loop body does not look at the [id] an entry came with. *)
Lemma update_id_forgets_id (d : dict) (old : pyval) :
  update_id (PDict (dict_set d "id" old)) = update_id (PDict d).
Proof.
  unfold update_id, py_get.
  rewrite dict_get_set_other by discriminate.
  destruct (dict_get d "uri") as [uri|]; cbn [bind];
    (destruct (py_split _ _) as [parts|e]; cbn [bind]; [|reflexivity];
     destruct (index_last parts) as [r|e]; cbn [bind]; [|reflexivity];
     unfold py_setitem; now rewrite dict_set_set).
Qed.

Lemma mapM_update_id_forgets_id (entries : list dict) (old : pyval) :
  mapM update_id (map PDict (map (fun d => dict_set d "id" old) entries))
  = mapM update_id (map PDict entries).
Proof.
  induction entries as [|d entries IH]; [reflexivity|].
  cbn [map mapM]. now rewrite update_id_forgets_id, IH.
Qed.

End IdOverwritten.

(** C9.  The loop writes each entry's id from its URI whatever the entry
    held: the person of an entry without [uri] has the empty string as id,
    the person of an entry with a URI has the identifier embedded in it, and
    a page whose entries come with other ids gives the same persons. *)
Theorem douban_credits_id_overwritten (chain : DoubanChain.t)
  (doubanid type_name : string) (page : Z) (mediatype : MediaType)
  (entries : list dict) :
  MediaType_of type_name = Ok mediatype ->
  chain_credits chain mediatype doubanid page
    = Ok (PList (map PDict entries)) ->
  Forall credit_entry_ok entries ->
  (exists persons,
     douban_credits chain doubanid type_name page = Ok persons
     /\ Forall2
          (fun d p =>
             (dict_get d "uri" = None -> schemas.id p = PStr "")
             /\ (forall u, dict_get d "uri" = Some (PStr u) ->
                           exists r, schemas.id p = PStr r /\ extracted_id u r))
          entries persons)
  /\ (forall (chain' : DoubanChain.t) (old : pyval),
        chain_credits chain' mediatype doubanid page
          = Ok (PList (map PDict (map (fun d => dict_set d "id" old) entries))) ->
        douban_credits chain' doubanid type_name page
        = douban_credits chain doubanid type_name page).
Proof.
  intros HT HC W. split.
  - destruct (douban_credits_ids chain doubanid type_name page mediatype
                entries HT HC W) as (persons & HP & F).
    exists persons. split; [exact HP|].
    clear - F. induction F as [|d p entries persons (r & I & E) _ IH];
      constructor; [|exact IH].
    unfold uri_of in E. split.
    + intros U. rewrite U in E. now rewrite I, (extracted_id_empty r E).
    + intros u U. rewrite U in E. now exists r.
  - intros chain' old HC'. unfold douban_credits. rewrite HT. cbn [bind].
    destruct mediatype; cbn [MediaType_eqb chain_credits] in *;
      rewrite HC, HC'; cbn [bind];
      (destruct entries as [|d0 entries0]; [reflexivity|]);
      (assert (truthy (PList (map PDict (map (fun d => dict_set d "id" old)
                                             (d0 :: entries0)))) = true) as ->
          by reflexivity);
      (assert (truthy (PList (map PDict (d0 :: entries0))) = true) as ->
          by reflexivity);
      cbn [negb py_iter bind]; now rewrite mapM_update_id_forgets_id.
Qed.

Lemma douban_credits_id_overwritten_witness :
  (exists persons,
     douban_credits (const_chain (PList (map PDict [credit_without_uri])))
       "1292052" "电影" 1 = Ok persons
     /\ Forall2
          (fun d p =>
             (dict_get d "uri" = None -> schemas.id p = PStr "")
             /\ (forall u, dict_get d "uri" = Some (PStr u) ->
                           exists r, schemas.id p = PStr r /\ extracted_id u r))
          [credit_without_uri] persons)
  /\ (forall (chain' : DoubanChain.t) (old : pyval),
        chain_credits chain' MOVIE "1292052" 1
          = Ok (PList (map PDict (map (fun d => dict_set d "id" old)
                                      [credit_without_uri]))) ->
        douban_credits chain' "1292052" "电影" 1
        = douban_credits (const_chain (PList (map PDict [credit_without_uri])))
            "1292052" "电影" 1).
Proof.
  apply (douban_credits_id_overwritten
           (const_chain (PList (map PDict [credit_without_uri])))
           "1292052" "电影" 1%Z MOVIE [credit_without_uri]).
  - reflexivity.
  - reflexivity.
  - apply Forall_cons; [split; [reflexivity | left; reflexivity]|].
    apply Forall_nil.
Defined.

Example douban_credits_sample_without_uri :
  match douban_credits (const_chain (PList (map PDict [credit_without_uri])))
          "1292052" "电影" 1 with
  | Ok persons => map schemas.id persons
  | Raise _ => []
  end = [PStr ""].
Proof. reflexivity. Qed.

(** * The media type of a request *)

Section MediaTypeFacts.

Lemma MediaType_of_invalid (type_name : string) :
  (forall m, MediaType_value m <> type_name) ->
  MediaType_of type_name = Raise ValueError.
Proof.
  intros H. unfold MediaType_of.
  destruct (String.eqb_spec type_name (MediaType_value MOVIE)) as [E|_];
    [now destruct (H MOVIE)|].
  destruct (String.eqb_spec type_name (MediaType_value TV)) as [E|_];
    [now destruct (H TV) | reflexivity].
Qed.

Lemma MediaType_of_raises (type_name : string) (e : exn) :
  MediaType_of type_name = Raise e ->
  e = ValueError /\ forall m, MediaType_value m <> type_name.
Proof.
  unfold MediaType_of.
  destruct (String.eqb_spec type_name (MediaType_value MOVIE)) as [E|N1];
    [discriminate|].
  destruct (String.eqb_spec type_name (MediaType_value TV)) as [E|N2];
    [discriminate|].
  intros [= <-]. split; [reflexivity|]. intros [] E; congruence.
Qed.

Lemma mapM_length {A B : Type} (f : A -> result B) (l : list A)
  (ys : list B) :
  mapM f l = Ok ys -> length ys = length l.
Proof.
  revert ys. induction l as [|x l IH]; intros ys; simpl.
  - now intros [= <-].
  - destruct (f x) as [y|e]; simpl; [|discriminate].
    destruct (mapM f l) as [ys'|e]; simpl; [|discriminate].
    intros [= <-]. simpl. now rewrite (IH ys').
Qed.

Lemma chars_nonempty (c : ascii) (s : string) : chars (String c s) <> [].
Proof.
  simpl. destruct s as [|c' s]; [discriminate|].
  destruct (is_continuation c'); [|discriminate].
  destruct (chars (String c' s)); discriminate.
Qed.

(** A truthy payload that can be iterated has a first item. *)
Lemma py_iter_truthy (v : pyval) (items : list pyval) :
  truthy v = true -> py_iter v = Ok items -> items <> [].
Proof.
  destruct v as [| b | z | s | l | d]; simpl; try discriminate.
  - destruct s as [|c s]; [discriminate|]. intros _ [= <-].
    intros H. apply map_eq_nil in H. now apply chars_nonempty in H.
  - destruct l; [discriminate|]. now intros _ [= <-].
  - destruct d; [discriminate|]. now intros _ [= <-].
Qed.

End MediaTypeFacts.

(** C10.  A [type_name] that is not the value of a media type makes both
    handlers raise [ValueError] at the constructor, whatever the chain would
    answer; and whenever either handler returns the empty list, the type
    name was valid and the chain call of that media type answered with a
    falsy payload, so the empty list never comes from the final branch. *)
Theorem media_type_fallback_unreachable {MI : MediaInfoClass}
  (chain : DoubanChain.t) (doubanid type_name : string) (page : Z) :
  ((forall m, MediaType_value m <> type_name) ->
   douban_credits chain doubanid type_name page = Raise ValueError
   /\ douban_recommend chain doubanid type_name = Raise ValueError)
  /\ (douban_credits chain doubanid type_name page = Ok [] ->
      exists mediatype absent,
        MediaType_of type_name = Ok mediatype
        /\ chain_credits chain mediatype doubanid page = Ok absent
        /\ truthy absent = false)
  /\ (douban_recommend chain doubanid type_name = Ok [] ->
      exists mediatype absent,
        MediaType_of type_name = Ok mediatype
        /\ chain_recommend chain mediatype doubanid = Ok absent
        /\ truthy absent = false).
Proof.
  split; [|split].
  - intros H. apply MediaType_of_invalid in H.
    unfold douban_credits, douban_recommend. now rewrite H.
  - unfold douban_credits.
    destruct (MediaType_of type_name) as [mediatype|e]; [|discriminate].
    cbn [bind]. intros H. exists mediatype.
    destruct mediatype; cbn [MediaType_eqb chain_credits] in *;
      (match type of H with
       | bind ?c _ = _ => destruct c as [found|e]; [|discriminate]
       end);
      cbn [bind] in H; exists found;
      (destruct (truthy found) eqn:T; [exfalso | now repeat split]);
      cbn [negb] in H;
      (destruct (py_iter found) as [items|e] eqn:I; [|discriminate]);
      cbn [bind] in H;
      (destruct (mapM update_id items) as [updated|e] eqn:U; [|discriminate]);
      cbn [bind] in H;
      apply mapM_length in H; apply mapM_length in U;
      apply (py_iter_truthy _ _ T I); apply length_zero_iff_nil;
      simpl in H; lia.
  - unfold douban_recommend.
    destruct (MediaType_of type_name) as [mediatype|e]; [|discriminate].
    cbn [bind]. intros H. exists mediatype.
    destruct mediatype; cbn [MediaType_eqb chain_recommend] in *;
      (match type of H with
       | bind ?c _ = _ => destruct c as [found|e]; [|discriminate]
       end);
      cbn [bind] in H; exists found;
      (destruct (truthy found) eqn:T; [exfalso | now repeat split]);
      cbn [negb] in H;
      (destruct (py_iter found) as [items|e] eqn:I; [|discriminate]);
      cbn [bind] in H; injection H as H; apply map_eq_nil in H;
      now apply (py_iter_truthy _ _ T I).
Qed.

Lemma media_type_fallback_unreachable_witness :
  douban_credits (const_chain (PList (map PDict [credit_with_marker])))
    "1292052" "movie" 1 = Raise ValueError
  /\ douban_recommend (const_chain (PList [real_entry])) "1292052" "tv"
     = Raise ValueError.
Proof.
  split.
  - refine (proj1 (proj1 (media_type_fallback_unreachable
                            (const_chain (PList (map PDict [credit_with_marker])))
                            "1292052" "movie" 1%Z) _)).
    intros []; discriminate.
  - refine (proj2 (proj1 (media_type_fallback_unreachable
                            (const_chain (PList [real_entry]))
                            "1292052" "tv" 1%Z) _)).
    intros []; discriminate.
Defined.

(** * The person handler *)

Section PersonFacts.

Lemma join_raw_pair (lv : string * string) :
  py_join "：" (raw_pair lv) = Ok (join_pair lv).
Proof. destruct lv as [label value]. reflexivity. Qed.

Lemma join_raw_pairs (pairs : list (string * string)) :
  mapM (py_join "：") (map raw_pair pairs) = Ok (map join_pair pairs).
Proof.
  induction pairs as [|lv pairs IH]; [reflexivity|].
  cbn [map mapM]. rewrite join_raw_pair, IH. reflexivity.
Qed.

End PersonFacts.

(** C4.  For a person payload whose extra info is a list of (label, value)
    pairs, the person returned has as [also_known_as] the pairs joined with
    the full-width colon, in the order of the payload. *)
Theorem douban_person_also_known_as (chain : DoubanChain.t) (person_id : Z)
  (personinfo extra : dict) (pairs : list (string * string)) :
  DoubanChain.person_detail chain person_id = Ok (PDict personinfo) ->
  dict_get personinfo "extra" = Some (PDict extra) ->
  dict_get extra "info" = Some (PList (map raw_pair pairs)) ->
  (dict_get personinfo "cover_img" = None
   \/ exists cover, dict_get personinfo "cover_img" = Some (PDict cover)) ->
  exists person,
    douban_person chain person_id = Ok person
    /\ schemas.also_known_as person = PList (map PStr (map join_pair pairs)).
Proof.
  intros HC HE HI HV. unfold douban_person. rewrite HC. cbn [bind].
  assert (truthy (PDict personinfo) = true) as ->
    by (destruct personinfo; [discriminate | reflexivity]).
  cbn [negb]. unfold py_get at 1. rewrite HE. cbn [bind].
  unfold py_get at 1. rewrite HI. cbn [bind].
  assert ((if truthy (PList (map raw_pair pairs))
           then items <- py_iter (PList (map raw_pair pairs)) ;;
                joined <- mapM (py_join "：") items ;; Ok (map PStr joined)
           else Ok [])
          = Ok (map PStr (map join_pair pairs))) as ->.
  { destruct pairs as [|lv pairs]; [reflexivity|].
    assert (truthy (PList (map raw_pair (lv :: pairs))) = true) as ->
      by reflexivity.
    cbn [py_iter bind]. now rewrite join_raw_pairs. }
  cbn [bind]. unfold py_get. rewrite HE.
  destruct HV as [HV|(cover & HV)]; rewrite HV;
    destruct (dict_get personinfo "id");
    destruct (dict_get personinfo "title");
    cbn [bind];
    try destruct (dict_get cover "url");
    destruct (dict_get extra "short_info");
    cbn [bind];
    (eexists; split; [reflexivity | reflexivity]).
Qed.

Lemma douban_person_also_known_as_witness :
  exists person,
    douban_person (const_chain (PDict sample_person)) 1054395 = Ok person
    /\ schemas.also_known_as person
       = PList (map PStr (map join_pair sample_pairs)).
Proof.
  apply (douban_person_also_known_as (const_chain (PDict sample_person))
           1054395%Z sample_person
           [("short_info", PStr "Actor");
            ("info", PList (map raw_pair sample_pairs))]
           sample_pairs).
  - reflexivity.
  - reflexivity.
  - reflexivity.
  - right. eexists. reflexivity.
Defined.

Example douban_person_sample :
  match douban_person (const_chain (PDict sample_person)) 1054395 with
  | Ok person => schemas.also_known_as person
  | Raise _ => PNone
  end = PList [PStr "本名：Jane Doe"; PStr "职业：Actor"].
Proof. reflexivity. Qed.

(** * Worked examples *)

Example split_commas : split "," "a,b,,c" = Ok ["a"; "b"; ""; "c"].
Proof. reflexivity. Qed.

Example split_at_end : split "ab" "xabab" = Ok ["x"; ""; ""].
Proof. reflexivity. Qed.

Example split_overlapping : split "aa" "aaa" = Ok [""; "a"].
Proof. reflexivity. Qed.

Example chars_utf8 : chars "本a名" = ["本"; "a"; "名"].
Proof. reflexivity. Qed.

Example join_colon :
  py_join "：" (PList [PStr "本名"; PStr "Jane Doe"]) = Ok "本名：Jane Doe".
Proof. reflexivity. Qed.

Example join_over_characters : py_join "：" (PStr "ab") = Ok "a：b".
Proof. reflexivity. Qed.

Example extract_subject_id :
  (parts <- split subject_marker
              "douban://douban.com/celebrity/1316132?subject_id=27503705" ;;
   index_last parts) = Ok "27503705".
Proof. reflexivity. Qed.

Example extract_without_marker :
  (parts <- split subject_marker "no-marker-here" ;; index_last parts)
  = Ok "no-marker-here".
Proof. reflexivity. Qed.

Example media_type_values :
  MediaType_of "电影" = Ok MOVIE /\ MediaType_of "电视剧" = Ok TV.
Proof. split; reflexivity. Qed.

Example tv_listing_sample :
  douban_tvs (const_chain (PList [placeholder_entry; no_poster_entry; real_entry]))
    "R" "" 1 30
  = Ok [to_dict (from_douban real_entry)].
Proof. reflexivity. Qed.

(** * Further facts: splitting and joining *)

Section SplitJoin.

Local Open Scope string_scope.

Lemma split_fuel_nonempty (n : nat) (sep s : string) :
  split_fuel n sep s <> [].
Proof.
  destruct n; simpl; [discriminate|].
  destruct (partition sep s) as [[a b]|]; discriminate.
Qed.

Lemma index_last_nonempty {A : Type} (l : list A) :
  l <> [] -> exists r, index_last l = Ok r.
Proof.
  induction l as [|x l IH]; [congruence|]. intros _.
  destruct l as [|y l]; [now exists x|].
  destruct IH as (r & Hr); [discriminate|]. now exists r.
Qed.

(** The part before the first separator holds no separator. *)
Lemma partition_head_free (sep s a b : string) :
  sep <> "" -> partition sep s = Some (a, b) -> contains sep a = false.
Proof.
  intros N. revert a b. induction s as [|c s IH]; intros a b.
  - now rewrite partition_empty.
  - simpl. destruct (strip_prefix sep (String c s)) as [rest|] eqn:E.
    + intros [= <- <-]. unfold contains. now rewrite partition_empty.
    + destruct (partition sep s) as [[a' b']|] eqn:P; [|discriminate].
      intros [= <- <-]. specialize (IH a' b' eq_refl).
      unfold contains in *. simpl.
      destruct (strip_prefix sep (String c a')) as [r|] eqn:E'.
      * apply strip_prefix_Some in E'. apply partition_Some in P.
        assert (strip_prefix sep (String c s) = Some (r ++ sep ++ b')) as X.
        { apply strip_prefix_Some. rewrite P.
          change (String c (a' ++ sep ++ b')) with (String c a' ++ sep ++ b').
          now rewrite E', append_assoc. }
        congruence.
      * destruct (partition sep a') as [[x y]|]; [discriminate | reflexivity].
Qed.

Lemma concat_cons (sep x : string) (l : list string) :
  l <> [] -> String.concat sep (x :: l) = x ++ sep ++ String.concat sep l.
Proof. destruct l; [congruence | reflexivity]. Qed.

Lemma split_fuel_pieces (sep : string) (n : nat) (s : string) :
  sep <> "" -> String.length s <= n ->
  String.concat sep (split_fuel n sep s) = s
  /\ Forall (fun piece => contains sep piece = false) (split_fuel n sep s).
Proof.
  intros N. revert s. induction n as [|n IH]; intros s L.
  - assert (s = "") as -> by (apply length_zero; lia). simpl.
    split; [reflexivity|]. constructor; [|constructor].
    unfold contains. now rewrite partition_empty.
  - simpl. destruct (partition sep s) as [[a b]|] eqn:P.
    + pose proof (partition_shorter _ _ _ _ N P) as Lb.
      destruct (IH b) as [C F]; [lia|]. split.
      * rewrite concat_cons by apply split_fuel_nonempty.
        rewrite C. symmetry. now apply partition_Some.
      * constructor; [|exact F]. now apply (partition_head_free sep s a b).
    + split; [reflexivity|]. constructor; [|constructor].
      unfold contains. now rewrite P.
Qed.

End SplitJoin.

(** X1.  Splitting on a non-empty separator and joining the pieces with it
    gives the string back; there is at least one piece and no piece holds
    the separator. *)
Theorem split_then_join (sep s : string) :
  sep <> ""%string ->
  exists parts,
    split sep s = Ok parts
    /\ parts <> []
    /\ String.concat sep parts = s
    /\ Forall (fun piece => contains sep piece = false) parts.
Proof.
  intros N. exists (split_fuel (String.length s) sep s).
  destruct (split_fuel_pieces sep (String.length s) s N (le_n _)) as [C F].
  repeat split; try assumption.
  - unfold split. destruct sep; [congruence | reflexivity].
  - apply split_fuel_nonempty.
Qed.

Lemma split_then_join_witness :
  exists parts,
    split subject_marker
      "douban://douban.com/celebrity/1316132?subject_id=27503705" = Ok parts
    /\ parts <> []
    /\ String.concat subject_marker parts
       = "douban://douban.com/celebrity/1316132?subject_id=27503705"%string
    /\ Forall (fun piece => contains subject_marker piece = false) parts.
Proof.
  apply (split_then_join subject_marker
           "douban://douban.com/celebrity/1316132?subject_id=27503705").
  discriminate.
Defined.

(** * Further facts: the credits handler *)

Section CreditsMore.

Lemma mapM_inv {A B : Type} (f : A -> result B) (l : list A) (ys : list B) :
  mapM f l = Ok ys -> Forall2 (fun x y => f x = Ok y) l ys.
Proof.
  revert ys. induction l as [|x l IH]; intros ys; simpl.
  - intros [= <-]. constructor.
  - destruct (f x) as [y|e] eqn:Hx; simpl; [|discriminate].
    destruct (mapM f l) as [ys'|e]; simpl; [|discriminate].
    intros [= <-]. constructor; [exact Hx | now apply IH].
Qed.

(** When every failure of [f] is the exception [E], one failing item makes
    the traversal raise [E]. *)
Lemma mapM_raises {A B : Type} (f : A -> result B) (E : exn) (l : list A)
  (x : A) :
  (forall y e, f y = Raise e -> e = E) ->
  In x l -> (exists e, f x = Raise e) -> mapM f l = Raise E.
Proof.
  intros Honly Hin (e & Hx). induction l as [|a l IH]; [contradiction|].
  simpl. destruct (f a) as [y|e'] eqn:Ha; simpl.
  - destruct Hin as [->|Hin]; [congruence|]. now rewrite (IH Hin).
  - now rewrite (Honly a e' Ha).
Qed.

Lemma Forall2_In_l {A B : Type} (R : A -> B -> Prop) (l : list A)
  (l' : list B) (x : A) :
  Forall2 R l l' -> In x l -> exists y, In y l' /\ R x y.
Proof.
  induction 1 as [|a b l l' Rab _ IH]; [contradiction|].
  intros [->|Hin].
  - exists b. split; [now left | exact Rab].
  - destruct (IH Hin) as (y & Hy & Rxy). exists y. split; [now right | exact Rxy].
Qed.

Lemma Forall2_In_r {A B : Type} (R : A -> B -> Prop) (l : list A)
  (l' : list B) (y : B) :
  Forall2 R l l' -> In y l' -> exists x, In x l /\ R x y.
Proof.
  induction 1 as [|a b l l' Rab _ IH]; [contradiction|].
  intros [->|Hin].
  - exists a. split; [now left | exact Rab].
  - destruct (IH Hin) as (x & Hx & Rxy). exists x. split; [now right | exact Rxy].
Qed.

Lemma marker_last (u : string) :
  exists r,
    (parts <- split "?subject_id=" u ;; index_last parts) = Ok r
    /\ extracted_id u r
    /\ contains subject_marker r = false.
Proof.
  destruct (split_fuel_last subject_marker (String.length u) u)
    as (r & Hr & Cr & Hs); [discriminate | lia |].
  exists r. split; [exact Hr|]. split; [|exact Cr].
  destruct Hs as [[C ->]|[pre ->]].
  - right. split; [now apply contains_false | reflexivity].
  - left. split; [now exists pre, r|].
    now apply after_separator_is_last.
Qed.

(** What a successful turn of the loop did. *)
Lemma update_id_inv (x y : pyval) :
  update_id x = Ok y ->
  exists d r,
    x = PDict d
    /\ y = PDict (dict_set d "id" (PStr r))
    /\ (dict_get d "uri" = None \/ exists u, dict_get d "uri" = Some (PStr u))
    /\ extracted_id (uri_of d) r
    /\ contains subject_marker r = false.
Proof.
  unfold update_id. destruct x as [| | | | |d]; try discriminate.
  unfold py_get, uri_of.
  destruct (dict_get d "uri") as [[| | |u| |]|] eqn:U; try discriminate;
    cbn [bind py_split].
  - destruct (marker_last u) as (r & Hr & E & C).
    destruct (split "?subject_id=" u) as [parts|e]; cbn [bind] in *;
      [|discriminate].
    rewrite Hr. cbn [bind py_setitem]. intros [= <-].
    exists d, r. unfold uri_of. rewrite U.
    repeat split; try assumption. right. now exists u.
  - destruct (marker_last "") as (r & Hr & E & C).
    destruct (split "?subject_id=" "") as [parts|e]; cbn [bind] in *;
      [|discriminate].
    rewrite Hr. cbn [bind py_setitem]. intros [= <-].
    exists d, r. unfold uri_of. rewrite U.
    repeat split; try assumption. now left.
Qed.

(** The loop body fails in one way only. *)
Lemma update_id_only_attribute (x : pyval) (e : exn) :
  update_id x = Raise e -> e = AttributeError.
Proof.
  unfold update_id. destruct x as [| | | | |d]; try (now intros [= <-]).
  unfold py_get.
  destruct (dict_get d "uri") as [[| | |u| |]|]; cbn [bind py_split];
    try (now intros [= <-]).
  - destruct (marker_last u) as (r & Hr & _).
    destruct (split "?subject_id=" u) as [parts|e']; cbn [bind] in *;
      [|discriminate].
    rewrite Hr. discriminate.
Qed.

Lemma update_id_malformed (x : pyval) :
  malformed_credit x -> exists e, update_id x = Raise e.
Proof.
  intros [N|(d & v & -> & U & N)].
  - destruct x as [| | | | |d]; try (now eexists). now destruct (N d).
  - unfold update_id, py_get. rewrite U. cbn [bind].
    destruct v as [| | |u| |]; try (now eexists). now destruct (N u).
Qed.

Lemma person_of_inv (x : pyval) (p : schemas.MediaPerson) :
  person_of x = Ok p ->
  exists d,
    x = PDict d
    /\ dict_has d "source" = false
    /\ p = schemas.MediaPerson_init (("source", PStr "douban") :: d).
Proof.
  unfold person_of, call_with_source.
  destruct x as [| | | | |d]; try discriminate.
  destruct (dict_has d "source") eqn:S; [discriminate|].
  cbn [bind]. intros [= <-]. now exists d.
Qed.

Lemma person_of_only_type (x : pyval) (e : exn) :
  person_of x = Raise e -> e = TypeError.
Proof.
  unfold person_of, call_with_source.
  destruct x as [| | | | |d]; try (now intros [= <-]).
  destruct (dict_has d "source"); [now intros [= <-] | discriminate].
Qed.

(** The handler once the media type is known and the chain has answered. *)
Lemma douban_credits_after (chain : DoubanChain.t)
  (doubanid type_name : string) (page : Z) (mediatype : MediaType)
  (found : pyval) :
  MediaType_of type_name = Ok mediatype ->
  chain_credits chain mediatype doubanid page = Ok found ->
  douban_credits chain doubanid type_name page
  = if negb (truthy found) then Ok []
    else items <- py_iter found ;;
         updated <- mapM update_id items ;;
         mapM person_of updated.
Proof.
  intros HT HC. unfold douban_credits. rewrite HT. cbn [bind].
  destruct mediatype; cbn [MediaType_eqb chain_credits] in *;
    now rewrite HC.
Qed.

End CreditsMore.

Section CreditsOutcomes.

Lemma douban_credits_Ok_inv (chain : DoubanChain.t)
  (doubanid type_name : string) (page : Z)
  (persons : list schemas.MediaPerson) :
  douban_credits chain doubanid type_name page = Ok persons ->
  exists mediatype found,
    MediaType_of type_name = Ok mediatype
    /\ chain_credits chain mediatype doubanid page = Ok found.
Proof.
  unfold douban_credits.
  destruct (MediaType_of type_name) as [mediatype|e]; [|discriminate].
  cbn [bind]. intros H. exists mediatype.
  destruct mediatype; cbn [MediaType_eqb chain_credits] in *;
    (match type of H with
     | bind ?c _ = _ => destruct c as [found|e]; [|discriminate]
     end); now exists found.
Qed.

Lemma field_after_rewrite (d : dict) (k : string) (v w default : pyval) :
  k <> "source"%string -> k <> "id"%string ->
  schemas.field (("source", v) :: dict_set d "id" w) k default
  = schemas.field d k default.
Proof.
  intros N1 N2. unfold schemas.field. cbn [dict_get].
  assert (("source" =? k)%string = false) as ->
    by (apply String.eqb_neq; congruence).
  now rewrite dict_get_set_other by congruence.
Qed.

Lemma update_id_again (x y : pyval) :
  update_id x = Ok y -> update_id y = Ok y.
Proof.
  intros H. destruct (update_id_inv x y H) as (d & r & -> & -> & _).
  now rewrite update_id_forgets_id.
Qed.

Lemma mapM_update_id_again (items updated : list pyval) :
  mapM update_id items = Ok updated -> mapM update_id updated = Ok updated.
Proof.
  intros H. apply mapM_inv in H.
  induction H as [|x y items updated Hxy _ IH]; [reflexivity|].
  simpl. rewrite (update_id_again x y Hxy). simpl. now rewrite IH.
Qed.

End CreditsOutcomes.

(** X2.  One malformed item fails the whole page of credits: when an item
    of the answer is no dictionary, or has a [uri] that is not a string, the
    handler raises AttributeError and returns no person, whatever the other
    items are. *)
Theorem douban_credits_malformed_item (chain : DoubanChain.t)
  (doubanid type_name : string) (page : Z) (mediatype : MediaType)
  (items : list pyval) (x : pyval) :
  MediaType_of type_name = Ok mediatype ->
  chain_credits chain mediatype doubanid page = Ok (PList items) ->
  In x items ->
  malformed_credit x ->
  douban_credits chain doubanid type_name page = Raise AttributeError.
Proof.
  intros HT HC Hin Hbad.
  rewrite (douban_credits_after _ _ _ _ _ _ HT HC).
  assert (truthy (PList items) = true) as ->
    by (destruct items; [contradiction | reflexivity]).
  cbn [negb py_iter bind].
  rewrite (mapM_raises update_id AttributeError items x
             update_id_only_attribute Hin (update_id_malformed x Hbad)).
  reflexivity.
Qed.

Lemma douban_credits_malformed_item_witness :
  douban_credits
    (const_chain (PList [PDict credit_with_marker; PDict credit_null_uri]))
    "1292052" "电影" 1
  = Raise AttributeError.
Proof.
  apply (douban_credits_malformed_item
           (const_chain (PList [PDict credit_with_marker; PDict credit_null_uri]))
           "1292052" "电影" 1%Z MOVIE
           [PDict credit_with_marker; PDict credit_null_uri]
           (PDict credit_null_uri)).
  - reflexivity.
  - reflexivity.
  - right. left. reflexivity.
  - right. exists credit_null_uri, PNone.
    split; [reflexivity|]. split; [reflexivity | discriminate].
Defined.

(** X3.  An entry that brings a [source] key of its own makes the handler
    raise TypeError (the keyword is given twice), even when every URI of the
    page is well formed. *)
Theorem douban_credits_own_source (chain : DoubanChain.t)
  (doubanid type_name : string) (page : Z) (mediatype : MediaType)
  (entries : list dict) (d : dict) :
  MediaType_of type_name = Ok mediatype ->
  chain_credits chain mediatype doubanid page
    = Ok (PList (map PDict entries)) ->
  Forall (fun d' => dict_get d' "uri" = None
                    \/ exists u, dict_get d' "uri" = Some (PStr u)) entries ->
  In d entries ->
  dict_has d "source" = true ->
  douban_credits chain doubanid type_name page = Raise TypeError.
Proof.
  intros HT HC W Hin S.
  rewrite (douban_credits_after _ _ _ _ _ _ HT HC).
  assert (truthy (PList (map PDict entries)) = true) as ->
    by (destruct entries; [contradiction | reflexivity]).
  cbn [negb py_iter bind].
  destruct (mapM_Forall2 update_id
              (fun x y => exists d' r, x = PDict d'
                                       /\ y = PDict (dict_set d' "id" (PStr r)))
              (map PDict entries)) as (updated & HU & F).
  { apply Forall_map. eapply Forall_impl; [|exact W]. intros d' U.
    destruct (update_id_entry d' U) as (r & Hr & _).
    eexists. split; [exact Hr|]. now exists d', r. }
  rewrite HU. cbn [bind].
  destruct (Forall2_In_l _ _ _ (PDict d) F) as (y & Hy & d' & r & E & ->).
  { now apply in_map. }
  injection E as <-.
  apply (mapM_raises person_of TypeError updated
           (PDict (dict_set d "id" (PStr r))) person_of_only_type Hy).
  exists TypeError. unfold person_of, call_with_source.
  assert (dict_has (dict_set d "id" (PStr r)) "source" = true) as ->.
  { unfold dict_has in *. rewrite dict_get_set_other; [exact S | discriminate]. }
  reflexivity.
Qed.

Lemma douban_credits_own_source_witness :
  douban_credits
    (const_chain (PList (map PDict [credit_with_marker; credit_with_source])))
    "1292052" "电视剧" 1
  = Raise TypeError.
Proof.
  apply (douban_credits_own_source
           (const_chain (PList (map PDict [credit_with_marker; credit_with_source])))
           "1292052" "电视剧" 1%Z TV
           [credit_with_marker; credit_with_source] credit_with_source).
  - reflexivity.
  - reflexivity.
  - apply Forall_cons; [right; eexists; reflexivity|].
    apply Forall_cons; [left; reflexivity|]. apply Forall_nil.
  - right. left. reflexivity.
  - reflexivity.
Defined.

(** X4.  Whatever the chain answers, every person the credits handler
    returns has the provider as source and a string id in which the marker
    [?subject_id=] does not occur. *)
Theorem douban_credits_persons_shape (chain : DoubanChain.t)
  (doubanid type_name : string) (page : Z)
  (persons : list schemas.MediaPerson) :
  douban_credits chain doubanid type_name page = Ok persons ->
  Forall (fun p => schemas.source p = PStr "douban"
                   /\ exists r, schemas.id p = PStr r
                                /\ ~ occurs subject_marker r)
    persons.
Proof.
  intros H.
  destruct (douban_credits_Ok_inv _ _ _ _ _ H) as (mediatype & found & HT & HC).
  rewrite (douban_credits_after _ _ _ _ _ _ HT HC) in H.
  destruct (truthy found); cbn [negb] in H; [|injection H as <-; constructor].
  destruct (py_iter found) as [items|e]; cbn [bind] in H; [|discriminate].
  destruct (mapM update_id items) as [updated|e] eqn:U; cbn [bind] in H;
    [|discriminate].
  apply mapM_inv in U. apply mapM_inv in H.
  apply Forall_forall. intros p Hp.
  destruct (Forall2_In_r _ _ _ p H Hp) as (y & Hy & Py).
  destruct (Forall2_In_r _ _ _ y U Hy) as (x & _ & Ux).
  destruct (update_id_inv x y Ux) as (d & r & _ & -> & _ & _ & C).
  destruct (person_of_inv _ _ Py) as (d' & E & S & ->).
  injection E as <-. split; [reflexivity|]. exists r. split.
  - cbn. unfold schemas.field. cbn. now rewrite dict_get_set_same.
  - now apply contains_false.
Qed.

Lemma douban_credits_persons_shape_witness :
  Forall (fun p => schemas.source p = PStr "douban"
                   /\ exists r, schemas.id p = PStr r
                                /\ ~ occurs subject_marker r)
    [schemas.MediaPerson_init
       (("source", PStr "douban")
          :: dict_set credit_with_marker "id" (PStr "27503705"))].
Proof.
  apply (douban_credits_persons_shape
           (const_chain (PList [PDict credit_with_marker]))
           "1292052" "电影" 1%Z).
  reflexivity.
Defined.

(** X5.  The loop touches the id only: for a page of well-formed entries
    each person has the name, avatar, biography and other names its entry
    gives (null, or no other names, when the entry has none), and the
    provider as source. *)
Theorem douban_credits_passes_fields (chain : DoubanChain.t)
  (doubanid type_name : string) (page : Z) (mediatype : MediaType)
  (entries : list dict) :
  MediaType_of type_name = Ok mediatype ->
  chain_credits chain mediatype doubanid page
    = Ok (PList (map PDict entries)) ->
  Forall credit_entry_ok entries ->
  exists persons,
    douban_credits chain doubanid type_name page = Ok persons
    /\ Forall2 (fun d p => schemas.source p = PStr "douban"
                           /\ passes_through d p)
         entries persons.
Proof.
  intros HT HC W.
  destruct (mapM_two_passes update_id person_of
              (fun x p => exists d, x = PDict d
                                    /\ schemas.source p = PStr "douban"
                                    /\ passes_through d p)
              (map PDict entries)) as (updated & persons & HU & HP & F).
  { apply Forall_map. eapply Forall_impl; [|exact W]. intros d [S U].
    destruct (update_id_entry d U) as (r & Hr & _).
    destruct (person_of_entry d (PStr r) S) as (p & Hp & _).
    exists (PDict (dict_set d "id" (PStr r))), p.
    repeat split; [exact Hr | exact Hp |].
    destruct (person_of_inv _ _ Hp) as (d' & E & _ & ->).
    injection E as <-. exists d. split; [reflexivity|].
    split; [reflexivity|].
    unfold passes_through. cbn [schemas.MediaPerson_init schemas.name
      schemas.avatar schemas.biography schemas.also_known_as].
    now rewrite !field_after_rewrite by discriminate. }
  exists persons. split.
  - rewrite (douban_credits_after _ _ _ _ _ _ HT HC).
    destruct entries as [|d0 entries0];
      [simpl in F; inversion F; reflexivity|].
    assert (truthy (PList (map PDict (d0 :: entries0))) = true) as ->
      by reflexivity.
    cbn [negb py_iter bind]. rewrite HU. exact HP.
  - clear - F. revert persons F.
    induction entries as [|d entries IH]; intros persons F;
      inversion F as [|? p ? persons' (d' & E & S & P) F']; subst;
      constructor.
    + injection E as <-. now split.
    + now apply IH.
Qed.

Lemma douban_credits_passes_fields_witness :
  exists persons,
    douban_credits (const_chain (PList (map PDict [credit_without_uri])))
      "1292052" "电影" 1 = Ok persons
    /\ Forall2 (fun d p => schemas.source p = PStr "douban"
                           /\ passes_through d p)
         [credit_without_uri] persons.
Proof.
  apply (douban_credits_passes_fields
           (const_chain (PList (map PDict [credit_without_uri])))
           "1292052" "电影" 1%Z MOVIE [credit_without_uri]).
  - reflexivity.
  - reflexivity.
  - apply Forall_cons; [split; [reflexivity | left; reflexivity]|].
    apply Forall_nil.
Defined.

(** X6.  The loop rewrites the entries of the answer in place; when a later
    call is answered with the entries as an earlier call left them, the
    handler returns what it returned then. *)
Theorem douban_credits_rerun (chain chain' : DoubanChain.t)
  (doubanid type_name : string) (page : Z) (mediatype : MediaType)
  (items updated : list pyval) :
  MediaType_of type_name = Ok mediatype ->
  chain_credits chain mediatype doubanid page = Ok (PList items) ->
  mapM update_id items = Ok updated ->
  chain_credits chain' mediatype doubanid page = Ok (PList updated) ->
  douban_credits chain' doubanid type_name page
  = douban_credits chain doubanid type_name page.
Proof.
  intros HT HC HU HC'.
  rewrite (douban_credits_after _ _ _ _ _ _ HT HC).
  rewrite (douban_credits_after _ _ _ _ _ _ HT HC').
  pose proof (mapM_length _ _ _ HU) as L.
  destruct items as [|x items]; destruct updated as [|y updated];
    try discriminate; [reflexivity|].
  cbn [truthy negb py_iter bind].
  now rewrite HU, (mapM_update_id_again _ _ HU).
Qed.

Lemma douban_credits_rerun_witness :
  douban_credits
    (const_chain
       (PList [PDict (dict_set credit_with_marker "id" (PStr "27503705"))]))
    "1292052" "电影" 1
  = douban_credits (const_chain (PList [PDict credit_with_marker]))
      "1292052" "电影" 1.
Proof.
  apply (douban_credits_rerun
           (const_chain (PList [PDict credit_with_marker]))
           (const_chain
              (PList [PDict (dict_set credit_with_marker "id" (PStr "27503705"))]))
           "1292052" "电影" 1%Z MOVIE
           [PDict credit_with_marker]
           [PDict (dict_set credit_with_marker "id" (PStr "27503705"))]).
  - reflexivity.
  - reflexivity.
  - reflexivity.
  - reflexivity.
Defined.

(** * Further facts: the person handler *)

Section PersonMore.

Lemma bind_Ok_inv {A B : Type} (r : result A) (k : A -> result B) (y : B) :
  bind r k = Ok y -> exists x, r = Ok x /\ k x = Ok y.
Proof. destruct r as [x|e]; [|discriminate]. intros H. now exists x. Qed.

Lemma py_get_sub_dict (d : dict) (k : string) :
  absent_or_dict d k ->
  py_get (PDict d) k (PDict []) = Ok (PDict (sub_dict d k)).
Proof.
  unfold py_get, sub_dict. now intros [-> | (e & ->)].
Qed.

Lemma py_get_field (d : dict) (k : string) (default : pyval) :
  py_get (PDict d) k default = Ok (schemas.field d k default).
Proof.
  unfold py_get, schemas.field. now destruct (dict_get d k).
Qed.

End PersonMore.

(** X7.  Missing keys give null fields, not exceptions: for a person payload
    whose [extra] and [cover_img] are each missing or a dictionary, and
    whose extra info is missing or falsy, the handler returns the person
    with id from [id], name from [title], avatar from [cover_img.url],
    biography from [extra.short_info] (each null when its key is missing)
    and no other names. *)
Theorem douban_person_fields (chain : DoubanChain.t) (person_id : Z)
  (personinfo : dict) :
  DoubanChain.person_detail chain person_id = Ok (PDict personinfo) ->
  personinfo <> [] ->
  absent_or_dict personinfo "extra" ->
  absent_or_dict personinfo "cover_img" ->
  truthy (schemas.field (sub_dict personinfo "extra") "info" PNone) = false ->
  douban_person chain person_id
  = Ok {| schemas.source := PStr "douban";
          schemas.id := schemas.field personinfo "id" PNone;
          schemas.name := schemas.field personinfo "title" PNone;
          schemas.avatar :=
            schemas.field (sub_dict personinfo "cover_img") "url" PNone;
          schemas.biography :=
            schemas.field (sub_dict personinfo "extra") "short_info" PNone;
          schemas.also_known_as := PList [] |}.
Proof.
  intros HC N HE HV HI. unfold douban_person. rewrite HC. cbn [bind].
  assert (truthy (PDict personinfo) = true) as ->
    by (destruct personinfo; [congruence | reflexivity]).
  cbn [negb]. rewrite !(py_get_sub_dict _ _ HE), (py_get_sub_dict _ _ HV).
  cbn [bind]. rewrite (py_get_field (sub_dict personinfo "extra") "info").
  cbn [bind]. rewrite HI. cbn [bind].
  repeat (rewrite py_get_field; cbn [bind]).
  reflexivity.
Qed.

Lemma douban_person_fields_witness :
  douban_person (const_chain (PDict bare_person)) 1054395
  = Ok {| schemas.source := PStr "douban";
          schemas.id := PStr "1054395";
          schemas.name := PStr "Jane Doe";
          schemas.avatar := PNone;
          schemas.biography := PNone;
          schemas.also_known_as := PList [] |}.
Proof.
  apply (douban_person_fields (const_chain (PDict bare_person)) 1054395%Z
           bare_person).
  - reflexivity.
  - discriminate.
  - left. reflexivity.
  - left. reflexivity.
  - reflexivity.
Defined.

(** X8.  A nested value that is there without being a dictionary (a JSON
    null, say) is not treated as missing: with such an [extra] the handler
    raises AttributeError, and with such a [cover_img] it returns no
    person. *)
Theorem douban_person_null_nested (chain : DoubanChain.t) (person_id : Z)
  (personinfo : dict) :
  DoubanChain.person_detail chain person_id = Ok (PDict personinfo) ->
  (forall v, dict_get personinfo "extra" = Some v ->
             (forall e, v <> PDict e) ->
             douban_person chain person_id = Raise AttributeError)
  /\ (forall v, dict_get personinfo "cover_img" = Some v ->
                (forall c, v <> PDict c) ->
                forall person, douban_person chain person_id <> Ok person).
Proof.
  intros HC. split.
  - intros v Hv N. unfold douban_person. rewrite HC. cbn [bind].
    assert (truthy (PDict personinfo) = true) as ->
      by (destruct personinfo; [discriminate | reflexivity]).
    cbn [negb]. unfold py_get at 1. rewrite Hv. cbn [bind].
    destruct v as [| | | | |e]; try reflexivity. now destruct (N e).
  - intros v Hv N person H. unfold douban_person in H.
    rewrite HC in H. cbn [bind] in H.
    assert (truthy (PDict personinfo) = true) as T
      by (destruct personinfo; [discriminate | reflexivity]).
    rewrite T in H. cbn [negb] in H.
    apply bind_Ok_inv in H. destruct H as (extra & _ & H).
    apply bind_Ok_inv in H. destruct H as (infos & _ & H).
    apply bind_Ok_inv in H. destruct H as (aka & _ & H).
    apply bind_Ok_inv in H. destruct H as (pid & _ & H).
    apply bind_Ok_inv in H. destruct H as (title & _ & H).
    apply bind_Ok_inv in H. destruct H as (cover & Hcover & H).
    apply bind_Ok_inv in H. destruct H as (url & Hurl & _).
    unfold py_get in Hcover. rewrite Hv in Hcover. injection Hcover as <-.
    destruct v as [| | | | |c]; try discriminate. now destruct (N c).
Qed.

Lemma douban_person_null_nested_witness :
  douban_person (const_chain (PDict person_null_extra)) 1054395
    = Raise AttributeError
  /\ douban_person (const_chain (PDict person_null_cover)) 1054395
     <> Ok (schemas.MediaPerson_init [("source", PStr "douban")]).
Proof.
  split.
  - refine (proj1 (douban_person_null_nested
                     (const_chain (PDict person_null_extra)) 1054395%Z
                     person_null_extra eq_refl)
                  PNone eq_refl _).
    discriminate.
  - refine (proj2 (douban_person_null_nested
                     (const_chain (PDict person_null_cover)) 1054395%Z
                     person_null_cover eq_refl)
                  PNone eq_refl _ _).
    discriminate.
Defined.

(** * Further facts: the listings *)

Section ListingsMore.

Context {MI : MediaInfoClass}.

Lemma unfiltered_or (r : result pyval) :
  (found <- r ;;
   let movies := py_or found (PList []) in
   items <- py_iter movies ;;
   Ok (map (fun movie => to_dict (from_douban movie)) items))
  = unfiltered r.
Proof.
  unfold unfiltered, py_or. destruct r as [found|e]; [|reflexivity].
  cbn [bind]. now destruct (truthy found).
Qed.

Lemma unfiltered_showing (r : result pyval) :
  (movies <- r ;;
   if negb (truthy movies) then Ok []
   else items <- py_iter movies ;;
        let medias := map from_douban items in
        Ok (map to_dict medias))
  = unfiltered r.
Proof.
  unfold unfiltered. destruct r as [found|e]; [|reflexivity].
  cbn [bind]. destruct (truthy found); [|reflexivity]. cbn [negb].
  destruct (py_iter found); [|reflexivity]. cbn [bind]. now rewrite map_map.
Qed.

Lemma subseq_filter_map {A B : Type} (f : A -> B) (ok : A -> bool)
  (l : list A) :
  subseq (map f (filter ok l)) (map f l).
Proof.
  induction l as [|x l IH]; simpl; [constructor|].
  destruct (ok x); simpl; now constructor.
Qed.

Lemma subseq_length {A : Type} (l l' : list A) :
  subseq l l' -> length l <= length l'.
Proof. induction 1; simpl; lia. Qed.

Lemma discover_body_subseq (ok : MediaInfo -> bool) (r : result pyval)
  (all : list dict) :
  unfiltered r = Ok all ->
  exists l, discover_body ok r = Ok l /\ subseq l all.
Proof.
  unfold unfiltered, discover_body. destruct r as [found|e]; [|discriminate].
  cbn [bind]. destruct (truthy found); cbn [negb].
  - destruct (py_iter found) as [items|e]; [|discriminate]. cbn [bind].
    intros [= <-]. eexists. split; [reflexivity|].
    rewrite <- (map_map from_douban to_dict). apply subseq_filter_map.
  - intros [= <-]. exists []. split; [reflexivity | constructor].
Qed.

End ListingsMore.



(** X10.  The showing listing, the six ranked listings and, for a valid
    media type, the recommendations are one and the same function of the
    chain's answer: nothing for a falsy answer, otherwise one dictionary per
    item, in the order of the answer, with no poster condition. *)
Theorem listings_unfiltered {MI : MediaInfoClass}
  (chain : DoubanChain.t) (lists : DoubanChainLists.t) (page count : Z)
  (doubanid type_name : string) :
  movie_showing chain page count
    = unfiltered (DoubanChain.movie_showing chain page count)
  /\ movie_top250 lists page count
     = unfiltered (DoubanChainLists.movie_top250 lists page count)
  /\ tv_weekly_chinese lists page count
     = unfiltered (DoubanChainLists.tv_weekly_chinese lists page count)
  /\ tv_weekly_global lists page count
     = unfiltered (DoubanChainLists.tv_weekly_global lists page count)
  /\ tv_animation lists page count
     = unfiltered (DoubanChainLists.tv_animation lists page count)
  /\ movie_hot lists page count
     = unfiltered (DoubanChainLists.movie_hot lists page count)
  /\ tv_hot lists page count
     = unfiltered (DoubanChainLists.tv_hot lists page count)
  /\ (forall mediatype,
        MediaType_of type_name = Ok mediatype ->
        douban_recommend chain doubanid type_name
        = unfiltered (chain_recommend chain mediatype doubanid))
  /\ (forall items,
        unfiltered (Ok (PList items))
        = Ok (map (fun item => to_dict (from_douban item)) items)).
Proof.
  split; [apply unfiltered_showing|].
  do 6 (split; [apply unfiltered_or|]).
  split.
  - intros mediatype HT. unfold douban_recommend. rewrite HT. cbn [bind].
    unfold unfiltered.
    destruct mediatype; cbn [MediaType_eqb chain_recommend];
      (match goal with
       | |- bind ?c _ = _ => destruct c as [found|e]; [|reflexivity]
       end);
      cbn [bind]; now destruct (truthy found).
  - intros items. now destruct items.
Qed.

Lemma listings_unfiltered_witness :
  douban_recommend (const_chain (PList [placeholder_entry; real_entry]))
    "1292052" "电影"
  = unfiltered (Ok (PList [placeholder_entry; real_entry])).
Proof.
  exact (proj1 (proj2 (proj2 (proj2 (proj2 (proj2 (proj2 (proj2
           (listings_unfiltered
              (const_chain (PList [placeholder_entry; real_entry]))
              (const_lists (PList [placeholder_entry; real_entry]))
              1%Z 30%Z "1292052" "电影"))))))))
           MOVIE eq_refl).
Defined.

(** X11.  A discover listing only leaves entries out: what it returns is
    what the listing without poster condition returns for the same answer,
    with some dictionaries dropped and the others in their order; it is
    never longer. *)
Theorem discover_is_subsequence {MI : MediaInfoClass}
  (chain : DoubanChain.t) (sort tags : string) (page count : Z) :
  (forall all,
     unfiltered (DoubanChain.douban_discover chain MOVIE sort tags page count)
       = Ok all ->
     exists l,
       douban_movies chain sort tags page count = Ok l
       /\ subseq l all /\ length l <= length all)
  /\ (forall all,
        unfiltered (DoubanChain.douban_discover chain TV sort tags page count)
          = Ok all ->
        exists l,
          douban_tvs chain sort tags page count = Ok l
          /\ subseq l all /\ length l <= length all).
Proof.
  split; intros all H.
  - destruct (discover_body_subseq movie_poster_ok _ _ H) as (l & Hl & S).
    exists l. rewrite douban_movies_body.
    repeat split; [exact Hl | exact S | now apply subseq_length].
  - destruct (discover_body_subseq tv_poster_ok _ _ H) as (l & Hl & S).
    exists l. rewrite douban_tvs_body.
    repeat split; [exact Hl | exact S | now apply subseq_length].
Qed.

Lemma discover_is_subsequence_witness :
  exists l,
    douban_movies
      (const_chain (PList [placeholder_entry; real_entry; no_poster_entry]))
      "R" "" 1 30 = Ok l
    /\ subseq l (map (fun item => to_dict (from_douban item))
                   [placeholder_entry; real_entry; no_poster_entry])
    /\ length l <= 3.
Proof.
  exact (proj1 (discover_is_subsequence
                  (const_chain (PList [placeholder_entry; real_entry; no_poster_entry]))
                  "R" "" 1%Z 30%Z)
               _ eq_refl).
Defined.

(** X12.  The works of a person: a falsy answer gives the empty list; a
    page of dictionaries gives one media dictionary per work, in order,
    normalised from the work's [subject], a work without that key being
    normalised from null rather than refused; and one work that is no
    dictionary makes the handler raise AttributeError. *)
Theorem douban_person_credits_works {MI : MediaInfoClass}
  (lists : DoubanChainLists.t) (person_id page : Z) :
  (forall absent,
     DoubanChainLists.person_credits lists person_id page = Ok absent ->
     truthy absent = false ->
     douban_person_credits lists person_id page = Ok [])
  /\ (forall works,
        DoubanChainLists.person_credits lists person_id page
          = Ok (PList (map PDict works)) ->
        douban_person_credits lists person_id page
        = Ok (map (fun work =>
                     to_dict (from_douban (schemas.field work "subject" PNone)))
                works))
  /\ (forall items x,
        DoubanChainLists.person_credits lists person_id page
          = Ok (PList items) ->
        In x items -> (forall d, x <> PDict d) ->
        douban_person_credits lists person_id page = Raise AttributeError).
Proof.
  repeat split.
  - intros absent H T. unfold douban_person_credits. rewrite H. cbn [bind].
    now rewrite T.
  - intros works H. unfold douban_person_credits. rewrite H. cbn [bind].
    destruct works as [|w works]; [reflexivity|].
    assert (truthy (PList (map PDict (w :: works))) = true) as ->
      by reflexivity.
    cbn [negb py_iter bind]. generalize (w :: works). clear.
    intros works. induction works as [|w works IH]; [reflexivity|].
    cbn [map mapM]. rewrite py_get_field. cbn [bind]. now rewrite IH.
  - intros items x H Hin N. unfold douban_person_credits. rewrite H.
    cbn [bind].
    assert (truthy (PList items) = true) as ->
      by (destruct items; [contradiction | reflexivity]).
    cbn [negb py_iter bind].
    apply (mapM_raises _ AttributeError items x).
    + intros y e. destruct y as [| | | | |d]; try (now intros [= <-]).
      rewrite py_get_field. discriminate.
    + exact Hin.
    + exists AttributeError.
      destruct x as [| | | | |d]; try reflexivity. now destruct (N d).
Qed.

Lemma douban_person_credits_works_witness :
  douban_person_credits
    (const_lists (PList [work_with_subject; work_without_subject]))
    1054395 1
  = Ok [to_dict (from_douban real_entry); to_dict (from_douban PNone)].
Proof.
  exact (proj1 (proj2 (douban_person_credits_works
                         (const_lists (PList [work_with_subject; work_without_subject]))
                         1054395%Z 1%Z))
               [[("roles", PList [PStr "演员"]); ("subject", real_entry)];
                [("roles", PList [PStr "演员"])]]
               eq_refl).
Defined.

(** X13.  Assigning under a key and reading back: after [x[k] = v] the key
    reads [v], every other key reads what it read before, and the number of
    items grows by one at most. *)
Theorem setitem_then_get (x y : pyval) (k : string) (v : pyval) :
  py_setitem x k v = Ok y ->
  (forall default, py_get y k default = Ok v)
  /\ (forall k' default, k' <> k ->
                         py_get y k' default = py_get x k' default)
  /\ exists d d', x = PDict d /\ y = PDict d'
                  /\ length d' = (if dict_has d k then length d
                                  else S (length d)).
Proof.
  destruct x as [| | | | |d]; try discriminate.
  cbn [py_setitem]. intros [= <-]. repeat split.
  - intros default. unfold py_get. now rewrite dict_get_set_same.
  - intros k' default N. unfold py_get.
    now rewrite dict_get_set_other by congruence.
  - exists d, (dict_set d k v). repeat split. unfold dict_has.
    induction d as [|[k0 v0] d IH]; [reflexivity|].
    cbn [dict_set dict_get]. destruct (String.eqb k0 k); [reflexivity|].
    cbn [length]. rewrite IH. now destruct (dict_get d k).
Qed.

Lemma setitem_then_get_witness :
  py_get (PDict (dict_set credit_without_uri "id" (PStr ""))) "id" PNone
    = Ok (PStr "")
  /\ py_get (PDict (dict_set credit_without_uri "id" (PStr ""))) "name" PNone
     = py_get (PDict credit_without_uri) "name" PNone.
Proof.
  pose proof (setitem_then_get (PDict credit_without_uri)
                (PDict (dict_set credit_without_uri "id" (PStr "")))
                "id" (PStr "") eq_refl) as [G [O _]].
  split; [apply G | apply O; discriminate].
Defined.
